(** * express-shopify: the [/upload] orchestration of [server.js]

    A shallow embedding of the upload handler: staging, blob upload,
    registration and the readiness polling loop, together with the
    properties of the handler that the design document states.

    The handler talks to the outside world (the Admin GraphQL API, the
    storage backend, the timer).  Those calls are modelled by a small
    monad that threads the trace of outbound calls and propagates thrown
    errors; what the outside world answers is a parameter, [Platform].
    Console output is left out, except that a property read made while
    building a log line still throws when its object is missing. *)

From Stdlib Require Import ZArith NArith List String Ascii Bool Lia.
From Stdlib Require Import DecimalString.
Import ListNotations.

Local Open Scope string_scope.
Local Open Scope Z_scope.

(** ** JavaScript values the handler inspects *)

Module JS.

(** A property that holds a string, or is absent ([undefined]/[null]). *)
Definition optstr := option string.

(** Truthiness of such a property: absent and the empty string are falsy. *)
Definition truthy (v : optstr) : bool :=
  match v with
  | Some s => negb (String.eqb s "")
  | None => false
  end.

(** [v || dflt] where [dflt] is a string. *)
Definition or_else (v : optstr) (dflt : string) : string :=
  match v with
  | Some s => if String.eqb s "" then dflt else s
  | None => dflt
  end.

(** [v === lit] for a string literal [lit]. *)
Definition strict_eq (v : optstr) (lit : string) : bool :=
  match v with
  | Some s => String.eqb s lit
  | None => false
  end.

(** [s.startsWith(p)]. *)
Definition startsWith (s p : string) : bool := prefix p s.

(** [n.toString()] for a non-negative integer. *)
Definition toString (n : N) : string := NilEmpty.string_of_uint (N.to_uint n).

(** [JSON.stringify] of an array whose elements are given by their JSON text. *)
Definition stringify_array (elems : list string) : string :=
  "[" ++ String.concat "," elems ++ "]".

(** Messages of the [TypeError]s V8 raises on a missing object. *)
Definition TypeError_read (prop : string) : string :=
  "Cannot read properties of undefined (reading '" ++ prop ++ "')".

Definition TypeError_destructure (prop : string) : string :=
  "Cannot destructure property '" ++ prop ++ "' of '(intermediate value)' as it is undefined.".

End JS.

(** ** Data exchanged with the platform *)

(** [req.file] as multer fills it. *)
Record File := {
  buffer : list Byte.byte;
  originalname : string;
  mimetype : string;
  size : N
}.

Record Request := { file : option File }.

(** One entry of [stagedVars.input]. *)
Record StagedUploadInput := {
  su_filename : string;
  su_mimeType : string;
  su_httpMethod : string;
  su_resource : string;
  su_fileSize : string
}.

Record FormParam := { name : string; value : string }.

Record StagedTarget := {
  url : string;
  resourceUrl : string;
  parameters : list FormParam
}.

Record UserError := { field : string; message : string }.

Record StagedUploadsCreate := {
  stagedTargets : list StagedTarget;
  su_userErrors : list UserError
}.

(** One entry of [fileCreateVars.files]. *)
Record FileCreateInput := {
  originalSource : string;
  fc_filename : string;
  contentType : string
}.

(** An element of [fileCreate.files]: [id] is selected on three kinds only. *)
Record CreatedFile := {
  cf_typename : string;
  id : JS.optstr
}.

Record FileCreate := {
  files : list CreatedFile;
  fc_userErrors : list UserError
}.

Record Image := { image_url : JS.optstr }.

Record VideoSource := { source_url : JS.optstr; format : JS.optstr }.

(** The [node] of the poll query; every selected field may be absent. *)
Record Node := {
  typename : string;
  fileStatus : JS.optstr;
  node_url : JS.optstr;
  image : option Image;
  sources : option (list VideoSource)
}.

(** The multipart form, as the sequence of [append] calls made on it. *)
Inductive FormField :=
| TextField (fname fvalue : string)
| FileField (fname : string) (content : list Byte.byte) (filename ctype : string).

Definition FormData := list FormField.

Definition append (form : FormData) (f : FormField) : FormData :=
  (form ++ [f])%list.

(** The response of the storage backend, with the body [text()] gives;
    [ok] is node-fetch's getter. *)
Record StorageResponse := { status : Z; text : string }.

Definition ok (r : StorageResponse) : bool :=
  (200 <=? status r) && (status r <? 300).

(** The parsed body of an Admin API answer: [{ data, errors? }].  Each of
    [errors] is kept as its JSON text; [data] is [None] when it is missing. *)
Record GraphQLResult (D : Type) := {
  errors : list string;
  data : option D
}.
Arguments errors {D} _.
Arguments data {D} _.

(** A promise either rejects with an [Error] or resolves. *)
Inductive Settled (A : Type) :=
| Rejects (msg : string)
| Resolves (a : A).
Arguments Rejects {A} msg.
Arguments Resolves {A} a.

(** What the outside world answers.  The poll query is asked repeatedly,
    so its answer depends on the attempt (counted from 0). *)
Record Platform := {
  on_stagedUploadsCreate :
    StagedUploadInput -> Settled (GraphQLResult StagedUploadsCreate);
  on_storage : string -> FormData -> Settled StorageResponse;
  on_fileCreate : FileCreateInput -> Settled (GraphQLResult FileCreate);
  on_node : nat -> JS.optstr -> Settled (GraphQLResult (option Node))
}.

(** ** What the handler sends back *)

Inductive Body :=
| ErrorBody (error : string)
| ErrorsBody (errs : list UserError)
| StorageBody (error details : string)
| TimeoutBody (error : string) (last : string)
| UrlBody (u : JS.optstr).

Record Response := { code : Z; body : Body }.

(** [res.status(c).json(b)] and [res.json(b)]. *)
Definition status_json (c : Z) (b : Body) : Response := {| code := c; body := b |}.
Definition json (b : Body) : Response := status_json 200 b.

(** ** The monad of the handler *)

(** Outbound effects, in the order they happen. *)
Inductive Event :=
| AdminStaged (input : StagedUploadInput)
| StoragePost (target_url : string) (form : FormData)
| AdminFileCreate (input : FileCreateInput)
| AdminNode (node_id : JS.optstr)
| Sleep (ms : Z).

Definition Trace := list Event.

Inductive Outcome (A : Type) :=
| Value (a : A)
| Throws (msg : string).
Arguments Value {A} a.
Arguments Throws {A} msg.

Definition M (A : Type) : Type := Trace -> Outcome A * Trace.

Definition ret {A} (a : A) : M A := fun t => (Value a, t).

Definition throw {A} (msg : string) : M A := fun t => (Throws msg, t).

Definition bind {A B} (m : M A) (k : A -> M B) : M B :=
  fun t =>
    match m t with
    | (Value a, t') => k a t'
    | (Throws msg, t') => (Throws msg, t')
    end.

Definition emit (e : Event) : M unit := fun t => (Value tt, (t ++ [e])%list).

(** [await p] for a promise of the outside world. *)
Definition await {A} (p : Settled A) : M A :=
  match p with
  | Rejects msg => throw msg
  | Resolves a => ret a
  end.

(** [try { m } catch (err) { h err.message }]. *)
Definition try_catch {A} (m : M A) (h : string -> M A) : M A :=
  fun t =>
    match m t with
    | (Value a, t') => (Value a, t')
    | (Throws msg, t') => h msg t'
    end.

Declare Scope js_scope.
Delimit Scope js_scope with js.
Notation "x <- m ;; k" := (bind m (fun x => k))
  (at level 100, m at next level, right associativity) : js_scope.
Notation "m ;; k" := (bind m (fun _ => k))
  (at level 100, right associativity) : js_scope.
Local Open Scope js_scope.

(** ** The program *)

(** [getShopifyContentType]. *)
Definition getShopifyContentType (mimetype : string) : string :=
  if JS.startsWith mimetype "video/" then "VIDEO"
  else if JS.startsWith mimetype "image/" then "IMAGE"
  else "FILE".

(** [stagedVars.input[0]] and [fileCreateVars.files[0]]. *)
Definition stagedVars_of (f : File) : StagedUploadInput :=
  {| su_filename := originalname f;
     su_mimeType := mimetype f;
     su_httpMethod := "POST";
     su_resource := "FILE";
     su_fileSize := JS.toString (size f) |}.

Definition fileCreateVars_of (target : StagedTarget) (f : File) : FileCreateInput :=
  {| originalSource := resourceUrl target;
     fc_filename := originalname f;
     contentType := getShopifyContentType (mimetype f) |}.

(** The form built for the storage backend. *)
Definition uploadForm (target : StagedTarget) (f : File) : FormData :=
  let form := fold_left (fun form p => append form (TextField (name p) (value p)))
                (parameters target) [] in
  append form (FileField "file" (buffer f) (originalname f) (mimetype f)).

(** [node.image?.url] and [node.sources?.[0]?.url]. *)
Definition nested_image_url (node : Node) : JS.optstr :=
  match image node with
  | Some im => image_url im
  | None => None
  end.

Definition first_source_url (node : Node) : JS.optstr :=
  match sources node with
  | Some (s :: _) => source_url s
  | Some [] => None
  | None => None
  end.

(** The URL the READY branch of the loop assigns to [finalUrl], when one
    of its three tests succeeds. *)
Definition ready_url (node : Node) : JS.optstr :=
  if String.eqb (typename node) "GenericFile" && JS.truthy (node_url node)
  then node_url node
  else if String.eqb (typename node) "MediaImage" && JS.truthy (nested_image_url node)
  then nested_image_url node
  else if String.eqb (typename node) "Video" && JS.truthy (first_source_url node)
  then first_source_url node
  else None.

(** The two variables the loop assigns. *)
Record PollVars := {
  finalUrl : JS.optstr;
  lastStatus : JS.optstr
}.

Inductive Control := Break | Continue.

Section Handler.

(** [POLL_ATTEMPTS], the integer [parseInt] reads from the environment
    (30 when the variable is not set).  It may be zero or negative, and
    the loop then makes no turn; so it does when [parseInt] gives NaN,
    which is not an integer and is not modelled. *)
Variable POLL_ATTEMPTS : Z.

Variable platform : Platform.

(** [callAdmin]: log the call, wait for the parsed answer, throw on a
    non-empty [errors], return [data]. *)
Definition callAdmin {D} (call : Event) (answer : Settled (GraphQLResult D))
  : M (option D) :=
  emit call ;;
  result <- await answer ;;
  match errors result with
  | [] => ret (data result)
  | _ :: _ => throw ("GraphQL errors: " ++ JS.stringify_array (errors result))
  end.

(** [const { prop } = data]. *)
Definition destructure {D} (prop : string) (d : option D) : M D :=
  match d with
  | Some x => ret x
  | None => throw (JS.TypeError_destructure prop)
  end.

(** [arr[0]] followed by a read of [prop] on it (the read is made for
    the log line that follows the assignment). *)
Definition first_then_read {A} (prop : string) (arr : list A) : M A :=
  match arr with
  | x :: _ => ret x
  | [] => throw (JS.TypeError_read prop)
  end.

(** One turn of the polling loop, for attempt [i] (from 0). *)
Definition poll_body (created_id : JS.optstr) (i : nat) (v : PollVars)
  : M (Control * PollVars) :=
  d <- callAdmin (AdminNode created_id) (on_node platform i created_id) ;;
  node <- destructure "node" d ;;
  match node with
  | None => ret (Break, v)
  | Some node =>
      let v := {| finalUrl := finalUrl v; lastStatus := fileStatus node |} in
      let next := (emit (Sleep 1000) ;; ret (Continue, v)) in
      if JS.strict_eq (lastStatus v) "READY"
      then
        match ready_url node with
        | Some u => ret (Break, {| finalUrl := Some u; lastStatus := lastStatus v |})
        | None => next
        end
      else next
  end.

(** [for (let i = 0; i < POLL_ATTEMPTS; i++) { ... }].  The test holds
    for the first [Z.to_nat POLL_ATTEMPTS] values of [i] and for no
    other, so the loop is a recursion on the number [remaining] of turns
    left before the test fails; [i] counts up beside it. *)
Fixpoint poll_loop (created_id : JS.optstr) (remaining : nat) (i : nat)
  (v : PollVars) : M PollVars :=
  match remaining with
  | O => ret v
  | S remaining' =>
      r <- poll_body created_id i v ;;
      match fst r with
      | Break => ret (snd r)
      | Continue => poll_loop created_id remaining' (S i) (snd r)
      end
  end.

(** The Readiness Poller: the loop from [i = 0] and the response that
    follows it. *)
Definition poller (created_id : JS.optstr) : M Response :=
  v <- poll_loop created_id (Z.to_nat POLL_ATTEMPTS) 0
         {| finalUrl := None; lastStatus := None |} ;;
  if negb (JS.truthy (finalUrl v))
  then ret (status_json 500
              (TimeoutBody "File did not become READY in time"
                 (JS.or_else (lastStatus v) "UNKNOWN")))
  else ret (json (UrlBody (finalUrl v))).

(** The [try] block from the blob upload on, once [target] is known. *)
Definition upload_blob_onwards (target : StagedTarget) (f : File) : M Response :=
  let form := uploadForm target f in
  emit (StoragePost (url target) form) ;;
  storageRes <- await (on_storage platform (url target) form) ;;
  if negb (ok storageRes)
  then ret (status_json (status storageRes)
              (StorageBody "Storage upload failed" (text storageRes)))
  else
    let fileCreateVars := fileCreateVars_of target f in
    d <- callAdmin (AdminFileCreate fileCreateVars)
           (on_fileCreate platform fileCreateVars) ;;
    fileCreate <- destructure "fileCreate" d ;;
    match fc_userErrors fileCreate with
    | _ :: _ =>
        ret (status_json 422 (ErrorsBody (fc_userErrors fileCreate)))
    | [] =>
        created <- first_then_read "__typename" (files fileCreate) ;;
        poller (id created)
    end.

(** The body of the [try] block. *)
Definition upload_try (req : Request) : M Response :=
  match file req with
  | None => ret (status_json 400 (ErrorBody "No file provided"))
  | Some f =>
      let stagedVars := stagedVars_of f in
      d <- callAdmin (AdminStaged stagedVars)
             (on_stagedUploadsCreate platform stagedVars) ;;
      stagedUploadsCreate <- destructure "stagedUploadsCreate" d ;;
      match su_userErrors stagedUploadsCreate with
      | _ :: _ =>
          ret (status_json 422 (ErrorsBody (su_userErrors stagedUploadsCreate)))
      | [] =>
          target <- first_then_read "resourceUrl"
                      (stagedTargets stagedUploadsCreate) ;;
          upload_blob_onwards target f
      end
  end.

(** The handler of [POST /upload]: the [try] block and its [catch]. *)
Definition upload (req : Request) : M Response :=
  try_catch (upload_try req)
    (fun msg => ret (status_json 500 (ErrorBody msg))).

End Handler.

(** ** Vocabulary of the properties *)

(** What attempt [i] of the poll query sees: [Some (Some node)] for a
    node, [Some None] for a null node, [None] when [callAdmin] throws. *)
Definition observed (p : Platform) (created_id : JS.optstr) (i : nat)
  : option (option Node) :=
  match on_node p i created_id with
  | Resolves result =>
      match errors result with
      | [] => data result
      | _ :: _ => None
      end
  | Rejects _ => None
  end.

(** The status seen on attempt [i], if a node with a status is seen. *)
Definition status_at (p : Platform) (created_id : JS.optstr) (i : nat) : JS.optstr :=
  match observed p created_id i with
  | Some (Some node) => fileStatus node
  | _ => None
  end.

(** READY together with an extractable kind-specific URL. *)
Definition ready_with_url (node : Node) : JS.optstr :=
  if JS.strict_eq (fileStatus node) "READY" then ready_url node else None.

(** [u] is the non-empty kind-specific URL of [node], read off its
    fields: the [url] of a GenericFile, the [url] of the [image] of a
    MediaImage, the [url] of the first of the [sources] of a Video. *)
Definition extractable_url (node : Node) (u : string) : Prop :=
  u <> "" /\
  ((typename node = "GenericFile" /\ node_url node = Some u) \/
   (typename node = "MediaImage" /\
    exists im, image node = Some im /\ image_url im = Some u) \/
   (typename node = "Video" /\
    exists src rest, sources node = Some (src :: rest) /\ source_url src = Some u)).

(** [node] has status READY and the extractable URL [u]. *)
Definition ready_extractable (node : Node) (u : string) : Prop :=
  fileStatus node = Some "READY" /\ extractable_url node u.

(** Attempt [i] sees a non-null node that is not READY with an
    extractable URL. *)
Definition sees_pending (p : Platform) (created_id : JS.optstr) (i : nat) : Prop :=
  exists node,
    observed p created_id i = Some (Some node) /\
    forall u, ~ ready_extractable node u.

(** Attempt [i] sees a node that is not READY-with-URL. *)
Definition pending_at (p : Platform) (created_id : JS.optstr) (i : nat) : Prop :=
  exists node,
    observed p created_id i = Some (Some node) /\ ready_with_url node = None.


(** The status of the last of [n] attempts, if there is one. *)
Definition last_status (p : Platform) (created_id : JS.optstr) (n : nat) : JS.optstr :=
  match n with
  | O => None
  | S n' => status_at p created_id n'
  end.

Definition is_staging (e : Event) : bool :=
  match e with AdminStaged _ => true | _ => false end.
Definition is_storage (e : Event) : bool :=
  match e with StoragePost _ _ => true | _ => false end.
Definition is_registration (e : Event) : bool :=
  match e with AdminFileCreate _ => true | _ => false end.
Definition is_status_query (e : Event) : bool :=
  match e with AdminNode _ => true | _ => false end.

Definition status_queries (evs : Trace) : nat :=
  List.length (filter is_status_query evs).

(** The events of [n] turns of the loop that all go on to the next one. *)
Fixpoint pending_events (created_id : JS.optstr) (n : nat) : Trace :=
  match n with
  | O => []
  | S n' => AdminNode created_id :: Sleep 1000 :: pending_events created_id n'
  end.

Definition timeout_response (last : string) : Response :=
  status_json 500 (TimeoutBody "File did not become READY in time" last).

(** Staging went through: no GraphQL errors, no user errors, and
    [target] is the first staged target. *)
Definition staged (p : Platform) (f : File) (target : StagedTarget) : Prop :=
  exists result suc rest,
    on_stagedUploadsCreate p (stagedVars_of f) = Resolves result /\
    errors result = [] /\
    data result = Some suc /\
    su_userErrors suc = [] /\
    stagedTargets suc = target :: rest.

(** The message of the error [callAdmin] throws on [answer], when it
    throws: the rejection of the request, or the GraphQL errors. *)
Definition admin_error {D} (answer : Settled (GraphQLResult D)) : option string :=
  match answer with
  | Rejects msg => Some msg
  | Resolves result =>
      match errors result with
      | [] => None
      | _ :: _ => Some ("GraphQL errors: " ++ JS.stringify_array (errors result))
      end
  end.

(** The message of the error attempt [i] of the loop throws, when it
    throws: that of [callAdmin], or of destructuring a missing [data]. *)
Definition poll_error (p : Platform) (created_id : JS.optstr) (i : nat)
  : option string :=
  match admin_error (on_node p i created_id) with
  | Some msg => Some msg
  | None =>
      match on_node p i created_id with
      | Resolves result =>
          match data result with
          | None => Some (JS.TypeError_destructure "node")
          | Some _ => None
          end
      | Rejects _ => None
      end
  end.

(** The status the loop holds after [k] pending turns from attempt [i]. *)
Definition carried_status (p : Platform) (created_id : JS.optstr)
    (i k : nat) (v : PollVars) : JS.optstr :=
  match k with
  | O => lastStatus v
  | S k' => status_at p created_id (i + k')
  end.

(** The runs of the loop of [n] turns from attempt [i] with variables
    [v]: what it yields, and the events it adds.  Every run is [k] turns
    that go on to the next, and then either no turn is left, or attempt
    [i + k] ends the loop: by a null node, by READY with a URL, or by
    throwing. *)
Inductive PollRun (p : Platform) (created_id : JS.optstr) (i n : nat) (v : PollVars)
  : Outcome PollVars -> Trace -> Prop :=
| RunExhausted :
    (forall j, (i <= j < i + n)%nat -> pending_at p created_id j) ->
    PollRun p created_id i n v
      (Value {| finalUrl := finalUrl v;
                lastStatus := carried_status p created_id i n v |})
      (pending_events created_id n)
| RunVanished (k : nat) :
    (k < n)%nat ->
    (forall j, (i <= j < i + k)%nat -> pending_at p created_id j) ->
    observed p created_id (i + k) = Some None ->
    PollRun p created_id i n v
      (Value {| finalUrl := finalUrl v;
                lastStatus := carried_status p created_id i k v |})
      (pending_events created_id k ++ [AdminNode created_id])%list
| RunReady (k : nat) (node : Node) (u : string) :
    (k < n)%nat ->
    (forall j, (i <= j < i + k)%nat -> pending_at p created_id j) ->
    observed p created_id (i + k) = Some (Some node) ->
    ready_with_url node = Some u ->
    PollRun p created_id i n v
      (Value {| finalUrl := Some u; lastStatus := fileStatus node |})
      (pending_events created_id k ++ [AdminNode created_id])%list
| RunFailed (k : nat) (msg : string) :
    (k < n)%nat ->
    (forall j, (i <= j < i + k)%nat -> pending_at p created_id j) ->
    poll_error p created_id (i + k) = Some msg ->
    PollRun p created_id i n v (Throws msg)
      (pending_events created_id k ++ [AdminNode created_id])%list.

(** The blob upload went through: the backend answered 200..299. *)
Definition stored (p : Platform) (f : File) (target : StagedTarget) : Prop :=
  exists storageRes,
    on_storage p (url target) (uploadForm target f) = Resolves storageRes /\
    ok storageRes = true.

(** Registration went through: no GraphQL errors, no user errors, and
    [created] is the first file. *)
Definition registered (p : Platform) (f : File) (target : StagedTarget)
    (created : CreatedFile) : Prop :=
  exists result fc rest,
    on_fileCreate p (fileCreateVars_of target f) = Resolves result /\
    errors result = [] /\
    data result = Some fc /\
    fc_userErrors fc = [] /\
    files fc = created :: rest.

(** What a response of the handler looks like, by the kind of its body. *)
Definition response_consistent (r : Response) : Prop :=
  match body r with
  | UrlBody u => code r = 200 /\ JS.truthy u = true
  | ErrorsBody errs => code r = 422 /\ errs <> []
  | TimeoutBody _ last => code r = 500 /\ last <> ""
  | StorageBody _ _ => ~ (200 <= code r <= 299)
  | ErrorBody _ => code r = 400 \/ code r = 500
  end.

Definition is_sleep (e : Event) : bool :=
  match e with Sleep _ => true | _ => false end.

(** The events of a polling phase for [created_id] within [budget]
    queries: query and sleep in turn, each sleep of one second, the last
    query possibly not followed by a sleep. *)
Definition polling_events (created_id : JS.optstr) (budget : nat) (evs : Trace) : Prop :=
  exists k tail,
    evs = (pending_events created_id k ++ tail)%list /\
    (tail = [] \/ tail = [AdminNode created_id]) /\
    (k + List.length tail <= budget)%nat.

(** The events of one request keep the order of the phases: nothing, or
    the staging call; then at most one blob upload; then at most one
    registration; then the polling of one asset. *)
Definition phase_ordered (budget : nat) (evs : Trace) : Prop :=
  match evs with
  | [] => True
  | AdminStaged _ :: [] => True
  | AdminStaged _ :: StoragePost _ _ :: [] => True
  | AdminStaged _ :: StoragePost _ _ :: AdminFileCreate _ :: polls =>
      exists created_id, polling_events created_id budget polls
  | _ => False
  end.

(** ** Sample platforms *)

Module Sample.

Definition cat_png : File :=
  {| buffer := [Byte.x89; Byte.x50; Byte.x4e; Byte.x47];
     originalname := "cat.png";
     mimetype := "image/png";
     size := 1024 |}.

Definition req : Request := {| file := Some cat_png |}.

Definition T : StagedTarget :=
  {| url := "https://storage.test/upload";
     resourceUrl := "https://storage.test/tmp/cat.png";
     parameters := [ {| name := "key"; value := "tmp/cat.png" |};
                     {| name := "policy"; value := "p0" |};
                     {| name := "acl"; value := "private" |} ] |}.

Definition gid : JS.optstr := Some "gid://1".

Definition answer {D} (d : D) : Settled (GraphQLResult D) :=
  Resolves {| errors := []; data := Some d |}.

Definition image_node (st : string) (u : JS.optstr) : Node :=
  {| typename := "MediaImage";
     fileStatus := Some st;
     node_url := None;
     image := Some {| image_url := u |};
     sources := None |}.

Definition staging_ok (_ : StagedUploadInput) :=
  answer {| stagedTargets := [T]; su_userErrors := [] |}.

Definition storage_200 (_ : string) (_ : FormData) :=
  Resolves {| status := 200; text := "" |}.

Definition register_ok (_ : FileCreateInput) :=
  answer {| files := [ {| cf_typename := "MediaImage"; id := gid |} ];
            fc_userErrors := [] |}.

(** PENDING on the first attempt, READY with an image URL afterwards. *)
Definition happy : Platform :=
  {| on_stagedUploadsCreate := staging_ok;
     on_storage := storage_200;
     on_fileCreate := register_ok;
     on_node := fun i _ =>
       match i with
       | O => answer (Some (image_node "PENDING" None))
       | S _ => answer (Some (image_node "READY" (Some "https://cdn/cat.png")))
       end |}.

(** Every attempt sees PROCESSING. *)
Definition processing : Platform :=
  {| on_stagedUploadsCreate := staging_ok;
     on_storage := storage_200;
     on_fileCreate := register_ok;
     on_node := fun _ _ => answer (Some (image_node "PROCESSING" None)) |}.

(** PROCESSING on the first attempt, then the node is gone. *)
Definition vanishing : Platform :=
  {| on_stagedUploadsCreate := staging_ok;
     on_storage := storage_200;
     on_fileCreate := register_ok;
     on_node := fun i _ =>
       match i with
       | O => answer (Some (image_node "PROCESSING" None))
       | S _ => answer None
       end |}.


(** The storage backend refuses the blob. *)
Definition forbidden : Platform :=
  {| on_stagedUploadsCreate := staging_ok;
     on_storage := fun _ _ => Resolves {| status := 403; text := "Forbidden" |};
     on_fileCreate := register_ok;
     on_node := fun _ _ => answer None |}.

Definition filename_required : list UserError :=
  [ {| field := "filename"; message := "required" |} ].

(** Staging is rejected with a user error. *)
Definition rejected : Platform :=
  {| on_stagedUploadsCreate := fun _ =>
       answer {| stagedTargets := []; su_userErrors := filename_required |};
     on_storage := storage_200;
     on_fileCreate := register_ok;
     on_node := fun _ _ => answer None |}.

(** Staging answers with neither user errors nor targets. *)
Definition no_target : Platform :=
  {| on_stagedUploadsCreate := fun _ =>
       answer {| stagedTargets := []; su_userErrors := [] |};
     on_storage := storage_200;
     on_fileCreate := register_ok;
     on_node := fun _ _ => answer None |}.

(** The Admin API cannot be reached. *)
Definition offline : Platform :=
  {| on_stagedUploadsCreate := fun _ => Rejects "connect ECONNREFUSED";
     on_storage := storage_200;
     on_fileCreate := register_ok;
     on_node := fun _ _ => answer None |}.

(** The Admin API answers the staging call with GraphQL errors, and with
    a payload that carries user errors as well. *)
Definition throttled : Platform :=
  {| on_stagedUploadsCreate := fun _ =>
       Resolves {| errors := ["{}"];
                   data := Some {| stagedTargets := [];
                                   su_userErrors := filename_required |} |};
     on_storage := storage_200;
     on_fileCreate := register_ok;
     on_node := fun _ _ => answer None |}.

(** The storage backend cannot be reached. *)
Definition storage_down : Platform :=
  {| on_stagedUploadsCreate := staging_ok;
     on_storage := fun _ _ => Rejects "socket hang up";
     on_fileCreate := register_ok;
     on_node := fun _ _ => answer None |}.

(** Registration is rejected with a user error. *)
Definition unregistered : Platform :=
  {| on_stagedUploadsCreate := staging_ok;
     on_storage := storage_200;
     on_fileCreate := fun _ =>
       answer {| files := []; fc_userErrors := filename_required |};
     on_node := fun _ _ => answer None |}.

(** The Admin API cannot be reached for the registration. *)
Definition registration_down : Platform :=
  {| on_stagedUploadsCreate := staging_ok;
     on_storage := storage_200;
     on_fileCreate := fun _ => Rejects "socket hang up";
     on_node := fun _ _ => answer None |}.

(** Registration answers with neither user errors nor files. *)
Definition no_file_created : Platform :=
  {| on_stagedUploadsCreate := staging_ok;
     on_storage := storage_200;
     on_fileCreate := fun _ => answer {| files := []; fc_userErrors := [] |};
     on_node := fun _ _ => answer None |}.

(** PROCESSING on the first attempt, then the Admin API cannot be reached. *)
Definition poll_breaks : Platform :=
  {| on_stagedUploadsCreate := staging_ok;
     on_storage := storage_200;
     on_fileCreate := register_ok;
     on_node := fun i _ =>
       match i with
       | O => answer (Some (image_node "PROCESSING" None))
       | S _ => Rejects "socket hang up"
       end |}.


Definition video_node (st : JS.optstr) (srcs : option (list VideoSource)) : Node :=
  {| typename := "Video";
     fileStatus := st;
     node_url := None;
     image := None;
     sources := srcs |}.

Definition video_sources : list VideoSource :=
  [ {| source_url := Some "https://cdn/cat.mp4"; format := Some "mp4" |};
    {| source_url := Some "https://cdn/cat.m3u8"; format := Some "m3u8" |} ].

(** A video: PROCESSING without sources, then READY with two sources. *)
Definition video_late : Platform :=
  {| on_stagedUploadsCreate := staging_ok;
     on_storage := storage_200;
     on_fileCreate := register_ok;
     on_node := fun i _ =>
       match i with
       | O => answer (Some (video_node (Some "PROCESSING") None))
       | S _ => answer (Some (video_node (Some "READY") (Some video_sources)))
       end |}.

(** PROCESSING on the first attempt, then a node without [fileStatus]. *)
Definition status_lost : Platform :=
  {| on_stagedUploadsCreate := staging_ok;
     on_storage := storage_200;
     on_fileCreate := register_ok;
     on_node := fun i _ =>
       match i with
       | O => answer (Some (image_node "PROCESSING" None))
       | S _ => answer (Some (video_node None None))
       end |}.

(** Every attempt sees a node whose status is the empty string. *)
Definition empty_status : Platform :=
  {| on_stagedUploadsCreate := staging_ok;
     on_storage := storage_200;
     on_fileCreate := register_ok;
     on_node := fun _ _ => answer (Some (image_node "" None)) |}.

Definition created_image : CreatedFile :=
  {| cf_typename := "MediaImage"; id := gid |}.


End Sample.

(** ** Running the model on the scenarios of the design document *)

Example scenario_cat_png :
  upload 30 Sample.happy Sample.req [] =
  (Value (json (UrlBody (Some "https://cdn/cat.png"))),
   [ AdminStaged (stagedVars_of Sample.cat_png);
     StoragePost "https://storage.test/upload"
       [ TextField "key" "tmp/cat.png"; TextField "policy" "p0";
         TextField "acl" "private";
         FileField "file" (buffer Sample.cat_png) "cat.png" "image/png" ];
     AdminFileCreate {| originalSource := "https://storage.test/tmp/cat.png";
                        fc_filename := "cat.png";
                        contentType := "IMAGE" |};
     AdminNode Sample.gid; Sleep 1000; AdminNode Sample.gid ]).
Proof. vm_compute. reflexivity. Qed.

Example scenario_ceiling_2_processing :
  upload 2 Sample.processing Sample.req [] =
  (Value (status_json 500
            (TimeoutBody "File did not become READY in time" "PROCESSING")),
   [ AdminStaged (stagedVars_of Sample.cat_png);
     StoragePost (url Sample.T) (uploadForm Sample.T Sample.cat_png);
     AdminFileCreate {| originalSource := "https://storage.test/tmp/cat.png";
                        fc_filename := "cat.png";
                        contentType := "IMAGE" |};
     AdminNode Sample.gid; Sleep 1000; AdminNode Sample.gid; Sleep 1000 ]).
Proof. vm_compute. reflexivity. Qed.

Example scenario_ceiling_0 :
  poller 0 Sample.processing Sample.gid []
  = (Value (status_json 500
              (TimeoutBody "File did not become READY in time" "UNKNOWN")), []).
Proof. reflexivity. Qed.

Example scenario_storage_403 :
  upload 30 Sample.forbidden Sample.req [] =
  (Value (status_json 403 (StorageBody "Storage upload failed" "Forbidden")),
   [ AdminStaged (stagedVars_of Sample.cat_png);
     StoragePost (url Sample.T) (uploadForm Sample.T Sample.cat_png) ]).
Proof. vm_compute. reflexivity. Qed.

Example stagedVars_size :
  su_fileSize (stagedVars_of Sample.cat_png) = "1024".
Proof. reflexivity. Qed.

(** ** Running the monad *)

Lemma bind_value {A B} (m : M A) (k : A -> M B) t a t' :
  m t = (Value a, t') -> bind m k t = k a t'.
Proof. intros E. unfold bind. rewrite E. reflexivity. Qed.

Lemma callAdmin_data {D} (call : Event) (answer : Settled (GraphQLResult D)) result t :
  answer = Resolves result ->
  errors result = [] ->
  callAdmin call answer t = (Value (data result), (t ++ [call])%list).
Proof.
  intros -> E. unfold callAdmin, bind, emit, await, ret. rewrite E. reflexivity.
Qed.

Lemma callAdmin_emits {D} (call : Event) (answer : Settled (GraphQLResult D)) t :
  snd (callAdmin call answer t) = (t ++ [call])%list.
Proof.
  unfold callAdmin, bind, emit, await, ret, throw.
  destruct answer as [msg | result]; [reflexivity |].
  destruct (errors result); reflexivity.
Qed.

(** ** Strings *)

Lemma prefix_app (p s : string) : prefix p (p ++ s) = true.
Proof.
  induction p as [| c p IH]; simpl.
  - destruct s; reflexivity.
  - destruct (Ascii.ascii_dec c c) as [_ | N]; [exact IH | contradiction].
Qed.

Lemma prefix_split (p s : string) :
  prefix p s = true -> exists rest, s = p ++ rest.
Proof.
  revert s. induction p as [| c p IH]; intros s H.
  - exists s. reflexivity.
  - destruct s as [| d s]; simpl in H; [discriminate |].
    destruct (Ascii.ascii_dec c d) as [-> | _]; [| discriminate].
    destruct (IH s H) as [rest ->]. exists rest. reflexivity.
Qed.

Lemma ready_url_truthy (node : Node) (u : string) :
  ready_url node = Some u -> JS.truthy (Some u) = true.
Proof.
  unfold ready_url.
  destruct (String.eqb (typename node) "GenericFile" && JS.truthy (node_url node)) eqn:G.
  { intros E. rewrite E in G. apply andb_true_iff in G. tauto. }
  destruct (String.eqb (typename node) "MediaImage" && JS.truthy (nested_image_url node)) eqn:I.
  { intros E. rewrite E in I. apply andb_true_iff in I. tauto. }
  destruct (String.eqb (typename node) "Video" && JS.truthy (first_source_url node)) eqn:V.
  { intros E. rewrite E in V. apply andb_true_iff in V. tauto. }
  discriminate.
Qed.


(** ** Counting events *)

Lemma status_queries_app (a b : Trace) :
  status_queries (a ++ b)%list = (status_queries a + status_queries b)%nat.
Proof. unfold status_queries. rewrite filter_app, length_app. reflexivity. Qed.

Lemma status_queries_pending (created_id : JS.optstr) (n : nat) :
  status_queries (pending_events created_id n) = n.
Proof.
  induction n as [| n IH]; [reflexivity |].
  change (S (status_queries (pending_events created_id n)) = S n).
  now rewrite IH.
Qed.

(** ** The polling loop *)

Section Poller.

Variable platform : Platform.
Variable created_id : JS.optstr.

(** What one turn does, by what the attempt sees. *)
Lemma poll_body_null i v t :
  observed platform created_id i = Some None ->
  poll_body platform created_id i v t = (Value (Break, v), (t ++ [AdminNode created_id])%list).
Proof.
  unfold observed, poll_body. intros O.
  destruct (on_node platform i created_id) as [msg | result] eqn:A; [discriminate |].
  destruct (errors result) eqn:E; [| discriminate].
  rewrite (bind_value _ _ _ _ _ (callAdmin_data _ _ _ t eq_refl E)).
  rewrite O. reflexivity.
Qed.

Lemma poll_body_pending i v t node :
  observed platform created_id i = Some (Some node) ->
  ready_with_url node = None ->
  poll_body platform created_id i v t =
  (Value (Continue, {| finalUrl := finalUrl v; lastStatus := fileStatus node |}),
   (t ++ [AdminNode created_id; Sleep 1000])%list).
Proof.
  unfold observed, poll_body, ready_with_url. intros O R.
  destruct (on_node platform i created_id) as [msg | result] eqn:A; [discriminate |].
  destruct (errors result) eqn:E; [| discriminate].
  rewrite (bind_value _ _ _ _ _ (callAdmin_data _ _ _ t eq_refl E)).
  rewrite O. cbn [destructure bind ret lastStatus].
  destruct (JS.strict_eq (fileStatus node) "READY").
  - rewrite R. unfold bind, emit, ret. rewrite <- app_assoc. reflexivity.
  - unfold bind, emit, ret. rewrite <- app_assoc. reflexivity.
Qed.

Lemma poll_body_ready i v t node u :
  observed platform created_id i = Some (Some node) ->
  ready_with_url node = Some u ->
  poll_body platform created_id i v t =
  (Value (Break, {| finalUrl := Some u; lastStatus := fileStatus node |}),
   (t ++ [AdminNode created_id])%list).
Proof.
  unfold observed, poll_body, ready_with_url. intros O R.
  destruct (on_node platform i created_id) as [msg | result] eqn:A; [discriminate |].
  destruct (errors result) eqn:E; [| discriminate].
  rewrite (bind_value _ _ _ _ _ (callAdmin_data _ _ _ t eq_refl E)).
  rewrite O. cbn [destructure bind ret lastStatus].
  destruct (JS.strict_eq (fileStatus node) "READY"); [| discriminate].
  rewrite R. reflexivity.
Qed.


(** [n] pending turns from attempt [i], then the loop goes on from
    attempt [i + n] with the status of the last of them. *)
Lemma poll_loop_pending n : forall m i v t,
  (forall j, (i <= j < i + n)%nat -> pending_at platform created_id j) ->
  poll_loop platform created_id (n + m) i v t =
  poll_loop platform created_id m (i + n)
    {| finalUrl := finalUrl v;
       lastStatus := match n with
                     | O => lastStatus v
                     | S n' => status_at platform created_id (i + n')
                     end |}
    (t ++ pending_events created_id n)%list.
Proof.
  induction n as [| n IH]; intros m i v t P.
  - rewrite Nat.add_0_r, app_nil_r. destruct v; reflexivity.
  - destruct (P i ltac:(lia)) as (node & O & R).
    cbn [Nat.add poll_loop].
    rewrite (bind_value _ _ _ _ _ (poll_body_pending i v t node O R)).
    cbn [fst snd].
    rewrite IH by (intros j Hj; apply P; lia).
    cbn [finalUrl lastStatus].
    replace (S i + n)%nat with (i + S n)%nat by lia.
    rewrite <- app_assoc. cbn [app].
    f_equal. f_equal.
    destruct n as [| n']; [| f_equal; lia].
    unfold status_at. rewrite Nat.add_0_r, O. reflexivity.
Qed.

(** The events of the loop are status queries and sleeps only. *)
Lemma poll_loop_events n : forall i v t,
  exists evs,
    snd (poll_loop platform created_id n i v t) = (t ++ evs)%list /\
    filter is_storage evs = [] /\ filter is_registration evs = [].
Proof.
  induction n as [| n IH]; intros i v t.
  - exists []. cbn. rewrite app_nil_r. auto.
  - cbn [poll_loop]. unfold bind at 1.
    assert (B : exists evs,
               snd (poll_body platform created_id i v t) = (t ++ evs)%list /\
               filter is_storage evs = [] /\ filter is_registration evs = []).
    { unfold poll_body, bind.
      pose proof (callAdmin_emits (AdminNode created_id) (on_node platform i created_id) t) as C.
      destruct (callAdmin (AdminNode created_id) (on_node platform i created_id) t) as [[d | msg] t'];
        simpl in C; subst t'.
      2:{ exists [AdminNode created_id]. auto. }
      destruct d as [[node |] |]; cbn.
      - destruct (JS.strict_eq (fileStatus node) "READY"); [destruct (ready_url node) |].
        + exists [AdminNode created_id]. auto.
        + exists [AdminNode created_id; Sleep 1000]. cbn. rewrite <- app_assoc. auto.
        + exists [AdminNode created_id; Sleep 1000]. cbn. rewrite <- app_assoc. auto.
      - exists [AdminNode created_id]. auto.
      - exists [AdminNode created_id]. auto. }
    destruct B as (evs & E & F1 & F2).
    destruct (poll_body platform created_id i v t) as [[[c v'] | msg] t'];
      simpl in E; subst t'.
    2:{ exists evs. auto. }
    destruct c; cbn [fst snd].
    + exists evs. auto.
    + destruct (IH (S i) v' (t ++ evs)%list) as (evs' & E' & F1' & F2').
      exists (evs ++ evs')%list. rewrite E', app_assoc, !filter_app, F1, F2, F1', F2'.
      auto.
Qed.

End Poller.

(** ** READY with a URL, by the fields of the node *)

Lemma ready_url_of_fields (node : Node) (u : string) :
  extractable_url node u -> ready_url node = Some u.
Proof.
  intros (N & H).
  assert (T : JS.truthy (Some u) = true).
  { cbn. destruct (String.eqb_spec u ""); [contradiction | reflexivity]. }
  unfold ready_url.
  destruct H as [(Ty & U) | [(Ty & im & I & U) | (Ty & src & rest & Sr & U)]];
    rewrite Ty.
  - rewrite U, T. reflexivity.
  - unfold nested_image_url. rewrite I, U, T. reflexivity.
  - unfold first_source_url. rewrite Sr, U, T. reflexivity.
Qed.

Lemma fields_of_ready_url (node : Node) (u : string) :
  ready_url node = Some u -> extractable_url node u.
Proof.
  intros R. pose proof (ready_url_truthy node u R) as T.
  split.
  { intros ->. discriminate T. }
  revert R. unfold ready_url.
  destruct (String.eqb_spec (typename node) "GenericFile") as [G | _]; cbn [andb].
  { destruct (JS.truthy (node_url node)); [intros R; auto |].
    rewrite G. cbn. discriminate. }
  destruct (String.eqb_spec (typename node) "MediaImage") as [M | _]; cbn [andb].
  { destruct (JS.truthy (nested_image_url node)).
    - unfold nested_image_url. destruct (image node) as [im |] eqn:I; [| discriminate].
      intros R. right. left. split; [exact M |]. exists im. auto.
    - rewrite M. cbn. discriminate. }
  destruct (String.eqb_spec (typename node) "Video") as [V | _]; cbn [andb];
    [| discriminate].
  destruct (JS.truthy (first_source_url node)); [| discriminate].
  unfold first_source_url.
  destruct (sources node) as [[| src rest] |] eqn:Sr; try discriminate.
  intros R. right. right. split; [exact V |]. exists src, rest. auto.
Qed.

Lemma ready_with_url_of_fields (node : Node) (u : string) :
  ready_extractable node u -> ready_with_url node = Some u.
Proof.
  intros (St & X). unfold ready_with_url. rewrite St. cbn.
  now apply ready_url_of_fields.
Qed.

Lemma sees_pending_pending (p : Platform) (created_id : JS.optstr) (i : nat) :
  sees_pending p created_id i -> pending_at p created_id i.
Proof.
  intros (node & O & N). exists node. split; [exact O |].
  destruct (ready_with_url node) as [u |] eqn:R; [| reflexivity].
  exfalso. apply (N u). unfold ready_with_url, JS.strict_eq in R.
  destruct (fileStatus node) as [s |] eqn:St; [| discriminate].
  destruct (String.eqb_spec s "READY") as [-> | _]; [| discriminate].
  split; [exact St | now apply fields_of_ready_url].
Qed.

(** ** The Readiness Poller *)

(** C1, as the code has it.  When every attempt sees a non-null node
    that is not READY with an extractable URL, the poller makes exactly
    [POLL_ATTEMPTS] status queries (none for a ceiling that is not
    positive), each followed by the one-second sleep, and answers 500
    with the timeout body.  The status it reports is
    [lastStatus || "UNKNOWN"] for the status of the last attempt: that
    status when it is a non-empty string, and "UNKNOWN" otherwise, that
    is when there was no attempt or the node of the last attempt had no
    status or an empty one, whatever the attempts before it saw. *)
Theorem poller_exhausts_ceiling
    (POLL_ATTEMPTS : Z) (platform : Platform) (created_id : JS.optstr) (t : Trace) :
  (forall i, (i < Z.to_nat POLL_ATTEMPTS)%nat -> sees_pending platform created_id i) ->
  exists evs reported,
    poller POLL_ATTEMPTS platform created_id t
      = (Value {| code := 500;
                  body := TimeoutBody "File did not become READY in time" reported |},
         (t ++ evs)%list) /\
    evs = pending_events created_id (Z.to_nat POLL_ATTEMPTS) /\
    status_queries evs = Z.to_nat POLL_ATTEMPTS /\
    (forall s, last_status platform created_id (Z.to_nat POLL_ATTEMPTS) = Some s ->
               s <> "" -> reported = s) /\
    (last_status platform created_id (Z.to_nat POLL_ATTEMPTS) = None \/
     last_status platform created_id (Z.to_nat POLL_ATTEMPTS) = Some "" ->
     reported = "UNKNOWN").
Proof.
  intros P. set (n := Z.to_nat POLL_ATTEMPTS) in *.
  exists (pending_events created_id n),
         (JS.or_else (last_status platform created_id n) "UNKNOWN").
  repeat split.
  - unfold poller. fold n.
    pose proof (poll_loop_pending platform created_id n 0 0
                  {| finalUrl := None; lastStatus := None |} t) as L.
    rewrite Nat.add_0_r in L.
    rewrite (bind_value _ _ _ _ _
               (L ltac:(intros j Hj; apply sees_pending_pending, P; lia))).
    cbn. unfold last_status. destruct n; reflexivity.
  - apply status_queries_pending.
  - intros s E N. rewrite E. cbn. destruct (String.eqb_spec s ""); congruence.
  - intros [E | E]; rewrite E; reflexivity.
Qed.

(** C2, as the code has it.  A null node ends the loop at once: the
    query that saw it is the last event, and no sleep follows.  The
    timeout body then carries [lastStatus || "UNKNOWN"] for the status of
    the attempt before it, so "UNKNOWN" only when the null node came on the
    first attempt or that status was absent or empty. *)
Theorem poller_stops_on_null_node
    (POLL_ATTEMPTS : Z) (platform : Platform) (created_id : JS.optstr) (t : Trace)
    (k : nat) :
  (k < Z.to_nat POLL_ATTEMPTS)%nat ->
  (forall i, (i < k)%nat -> pending_at platform created_id i) ->
  observed platform created_id k = Some None ->
  exists evs reported,
    poller POLL_ATTEMPTS platform created_id t
      = (Value (timeout_response reported), (t ++ evs)%list) /\
    evs = (pending_events created_id k ++ [AdminNode created_id])%list /\
    status_queries evs = S k /\
    reported = JS.or_else (last_status platform created_id k) "UNKNOWN" /\
    (k = O -> reported = "UNKNOWN") /\
    (forall s, last_status platform created_id k = Some s -> s <> "" -> reported = s).
Proof.
  intros K P O.
  exists (pending_events created_id k ++ [AdminNode created_id])%list,
         (JS.or_else (last_status platform created_id k) "UNKNOWN").
  repeat split.
  - unfold poller.
    replace (Z.to_nat POLL_ATTEMPTS) with (k + S (Z.to_nat POLL_ATTEMPTS - S k))%nat by lia.
    unfold bind at 1.
    rewrite poll_loop_pending by (intros j Hj; apply P; lia).
    cbn [Nat.add poll_loop]. unfold bind at 1.
    rewrite (poll_body_null platform created_id k _ _ O).
    cbn. rewrite <- app_assoc. unfold timeout_response, last_status.
    destruct k; reflexivity.
  - rewrite status_queries_app, status_queries_pending. cbn. lia.
  - intros ->. reflexivity.
  - intros s E N. rewrite E. cbn. destruct (String.eqb_spec s ""); congruence.
Qed.


(** C4.  When attempt [k] (counted from 0, so [k + 1 <= POLL_ATTEMPTS])
    is the first to see a READY node with an extractable URL (the [url]
    of a GenericFile, the [url] of the [image] of a MediaImage, the [url]
    of the first source of a Video), after [k] attempts that saw nodes in
    any other state, the poller stops there: the query of attempt [k] is
    its last event, and it answers 200 with that URL. *)
Theorem poller_succeeds_on_first_ready
    (POLL_ATTEMPTS : Z) (platform : Platform) (created_id : JS.optstr) (t : Trace)
    (k : nat) (node : Node) (u : string) :
  (k < Z.to_nat POLL_ATTEMPTS)%nat ->
  (forall i, (i < k)%nat -> sees_pending platform created_id i) ->
  observed platform created_id k = Some (Some node) ->
  ready_extractable node u ->
  exists evs,
    poller POLL_ATTEMPTS platform created_id t
      = (Value {| code := 200; body := UrlBody (Some u) |}, (t ++ evs)%list) /\
    evs = (pending_events created_id k ++ [AdminNode created_id])%list /\
    status_queries evs = S k.
Proof.
  intros K P O X.
  pose proof (ready_with_url_of_fields node u X) as R.
  exists (pending_events created_id k ++ [AdminNode created_id])%list.
  repeat split.
  - unfold poller.
    replace (Z.to_nat POLL_ATTEMPTS) with (k + S (Z.to_nat POLL_ATTEMPTS - S k))%nat by lia.
    unfold bind at 1.
    rewrite poll_loop_pending by (intros j Hj; apply sees_pending_pending, P; lia).
    cbn [Nat.add poll_loop]. unfold bind at 1.
    rewrite (poll_body_ready platform created_id k _ _ node u O R).
    cbn [fst snd finalUrl ret].
    assert (T : JS.truthy (Some u) = true).
    { destruct X as (_ & N & _). cbn.
      destruct (String.eqb_spec u ""); [contradiction | reflexivity]. }
    rewrite T. cbn. rewrite <- app_assoc. reflexivity.
  - rewrite status_queries_app, status_queries_pending. cbn. lia.
Qed.

(** ** The handler *)

Section Upload.

Variable POLL_ATTEMPTS : Z.
Variable platform : Platform.
Variable req : Request.
Variable f : File.
Hypothesis has_file : file req = Some f.

(** The [try] block when staging answers [suc] without GraphQL errors. *)
Lemma upload_try_after_staging result suc t :
  on_stagedUploadsCreate platform (stagedVars_of f) = Resolves result ->
  errors result = [] ->
  data result = Some suc ->
  upload_try POLL_ATTEMPTS platform req t =
  match su_userErrors suc with
  | _ :: _ =>
      (Value (status_json 422 (ErrorsBody (su_userErrors suc))),
       (t ++ [AdminStaged (stagedVars_of f)])%list)
  | [] =>
      match stagedTargets suc with
      | [] => (Throws (JS.TypeError_read "resourceUrl"),
               (t ++ [AdminStaged (stagedVars_of f)])%list)
      | target :: _ =>
          upload_blob_onwards POLL_ATTEMPTS platform target f
            (t ++ [AdminStaged (stagedVars_of f)])%list
      end
  end.
Proof.
  intros A E D. unfold upload_try. rewrite has_file.
  cbv zeta.
  rewrite (bind_value _ _ _ _ _ (callAdmin_data _ _ _ t A E)).
  rewrite D. cbn [destructure]. unfold bind at 1. cbn [ret].
  destruct (su_userErrors suc); [| reflexivity].
  destruct (stagedTargets suc) as [| target rest]; reflexivity.
Qed.

(** The blob upload is the first thing [upload_blob_onwards] does, and
    nothing after it posts to the storage backend again. *)
Lemma upload_blob_onwards_events target t :
  exists evs,
    snd (upload_blob_onwards POLL_ATTEMPTS platform target f t)
      = (t ++ StoragePost (url target) (uploadForm target f) :: evs)%list /\
    filter is_storage evs = [].
Proof.
  unfold upload_blob_onwards. cbv zeta. unfold bind at 1. cbn [emit].
  set (t1 := (t ++ [StoragePost (url target) (uploadForm target f)])%list).
  assert (G : exists evs,
    snd ((storageRes <- await (on_storage platform (url target) (uploadForm target f)) ;;
          if negb (ok storageRes)
          then ret (status_json (status storageRes)
                      (StorageBody "Storage upload failed" (text storageRes)))
          else
            d <- callAdmin (AdminFileCreate (fileCreateVars_of target f))
                   (on_fileCreate platform (fileCreateVars_of target f)) ;;
            fileCreate <- destructure "fileCreate" d ;;
            match fc_userErrors fileCreate with
            | _ :: _ =>
                ret (status_json 422 (ErrorsBody (fc_userErrors fileCreate)))
            | [] =>
                created <- first_then_read "__typename" (files fileCreate) ;;
                poller POLL_ATTEMPTS platform (id created)
            end) t1) = (t1 ++ evs)%list /\
    filter is_storage evs = []).
  2:{ destruct G as (evs & E & F). exists evs. split; [| exact F].
      rewrite E. unfold t1. now rewrite <- app_assoc. }
  generalize t1. clear t1 t. intros t.
  unfold bind at 1.
  destruct (on_storage platform (url target) (uploadForm target f)) as [msg | storageRes];
    cbn [await throw ret].
  { exists []. now rewrite app_nil_r. }
  destruct (negb (ok storageRes)).
  { exists []. now rewrite app_nil_r. }
  unfold bind at 1.
  pose proof (callAdmin_emits (AdminFileCreate (fileCreateVars_of target f))
                (on_fileCreate platform (fileCreateVars_of target f)) t) as C.
  destruct (callAdmin (AdminFileCreate (fileCreateVars_of target f))
              (on_fileCreate platform (fileCreateVars_of target f)) t) as [[d | msg] t'];
    simpl in C; subst t'.
  2:{ eexists. split; reflexivity. }
  destruct d as [fileCreate |]; cbn [destructure].
  2:{ eexists. split; reflexivity. }
  unfold bind at 1. cbn [ret].
  destruct (fc_userErrors fileCreate).
  2:{ eexists. split; reflexivity. }
  destruct (files fileCreate) as [| created rest]; cbn [first_then_read].
  { eexists. split; reflexivity. }
  unfold bind at 1. cbn [ret]. unfold poller, bind.
  destruct (poll_loop_events platform (id created) (Z.to_nat POLL_ATTEMPTS) 0
              {| finalUrl := None; lastStatus := None |}
              (t ++ [AdminFileCreate (fileCreateVars_of target f)])%list)
    as (evs & E & F & _).
  destruct (poll_loop platform (id created) (Z.to_nat POLL_ATTEMPTS) 0
              {| finalUrl := None; lastStatus := None |}
              (t ++ [AdminFileCreate (fileCreateVars_of target f)])%list)
    as [[v | msg] t']; simpl in E; subst t'.
  - exists (AdminFileCreate (fileCreateVars_of target f) :: evs).
    split; [| exact F].
    destruct (negb (JS.truthy (finalUrl v))); cbn; now rewrite <- app_assoc.
  - exists (AdminFileCreate (fileCreateVars_of target f) :: evs).
    split; [| exact F]. cbn. now rewrite <- app_assoc.
Qed.

(** The blob upload answered with a status outside 200..299. *)
Lemma upload_blob_refused target storageRes t :
  on_storage platform (url target) (uploadForm target f) = Resolves storageRes ->
  ok storageRes = false ->
  upload_blob_onwards POLL_ATTEMPTS platform target f t =
  (Value (status_json (status storageRes)
            (StorageBody "Storage upload failed" (text storageRes))),
   (t ++ [StoragePost (url target) (uploadForm target f)])%list).
Proof.
  intros A K. unfold upload_blob_onwards. cbv zeta.
  unfold bind at 1. cbn [emit]. unfold bind at 1. rewrite A. cbn [await ret].
  rewrite K. reflexivity.
Qed.

End Upload.

Lemma upload_responds (POLL_ATTEMPTS : Z) (platform : Platform) (req : Request)
    (t : Trace) r t' :
  upload_try POLL_ATTEMPTS platform req t = (Value r, t') ->
  upload POLL_ATTEMPTS platform req t = (Value r, t').
Proof. intros E. unfold upload, try_catch. rewrite E. reflexivity. Qed.

Lemma upload_catches (POLL_ATTEMPTS : Z) (platform : Platform) (req : Request)
    (t : Trace) msg t' :
  upload_try POLL_ATTEMPTS platform req t = (Throws msg, t') ->
  upload POLL_ATTEMPTS platform req t = (Value (status_json 500 (ErrorBody msg)), t').
Proof. intros E. unfold upload, try_catch. rewrite E. reflexivity. Qed.

(** The handler always answers: what the [try] block throws is caught. *)
Lemma upload_always_responds (POLL_ATTEMPTS : Z) (platform : Platform)
    (req : Request) (t : Trace) :
  exists r t', upload POLL_ATTEMPTS platform req t = (Value r, t').
Proof.
  destruct (upload_try POLL_ATTEMPTS platform req t) as [[r | msg] t'] eqn:E.
  - exists r, t'. now apply upload_responds.
  - exists (status_json 500 (ErrorBody msg)), t'. now apply upload_catches.
Qed.

Lemma snd_upload (POLL_ATTEMPTS : Z) (platform : Platform) (req : Request) (t : Trace) :
  snd (upload POLL_ATTEMPTS platform req t)
  = snd (upload_try POLL_ATTEMPTS platform req t).
Proof.
  unfold upload, try_catch.
  destruct (upload_try POLL_ATTEMPTS platform req t) as [[r | msg] t']; reflexivity.
Qed.

Lemma not_2xx_not_ok (r : StorageResponse) :
  ~ (200 <= status r <= 299) -> ok r = false.
Proof.
  intros N. unfold ok. apply andb_false_iff.
  destruct (Z.leb_spec 200 (status r)); [right | left; reflexivity].
  apply Z.ltb_ge. lia.
Qed.

Lemma fold_append_fields (ps : list FormParam) : forall acc : FormData,
  fold_left (fun form p => append form (TextField (name p) (value p))) ps acc
  = (acc ++ map (fun p => TextField (name p) (value p)) ps)%list.
Proof.
  induction ps as [| p ps IH]; intros acc; cbn [fold_left map].
  - now rewrite app_nil_r.
  - rewrite IH. unfold append. now rewrite <- app_assoc.
Qed.

Lemma uploadForm_fields (target : StagedTarget) (f : File) :
  uploadForm target f
  = (map (fun p => TextField (name p) (value p)) (parameters target)
       ++ [FileField "file" (buffer f) (originalname f) (mimetype f)])%list.
Proof.
  unfold uploadForm. cbv zeta. rewrite fold_append_fields. reflexivity.
Qed.

(** ** The handler: staging, blob upload, classification *)

(** C5.  When staging went through and the storage backend answers
    the blob upload with a status outside 200..299, the handler answers
    with that status and the body [{ error: "Storage upload failed",
    details }] where [details] is the backend's response text; the trace
    ends with the blob upload, so [fileCreate] is never called. *)
Theorem storage_failure_surfaced
    (POLL_ATTEMPTS : Z) (platform : Platform) (req : Request) (f : File)
    (target : StagedTarget) (storageRes : StorageResponse) (t : Trace) :
  file req = Some f ->
  staged platform f target ->
  on_storage platform (url target) (uploadForm target f) = Resolves storageRes ->
  ~ (200 <= status storageRes <= 299) ->
  exists evs,
    upload POLL_ATTEMPTS platform req t
      = (Value {| code := status storageRes;
                  body := StorageBody "Storage upload failed" (text storageRes) |},
         (t ++ evs)%list) /\
    evs = [AdminStaged (stagedVars_of f);
           StoragePost (url target) (uploadForm target f)] /\
    filter is_registration evs = [] /\
    status_queries evs = O.
Proof.
  intros F (result & suc & rest & A & E & D & U & T) S N.
  exists [AdminStaged (stagedVars_of f); StoragePost (url target) (uploadForm target f)].
  repeat split.
  apply upload_responds.
  rewrite (upload_try_after_staging POLL_ATTEMPTS platform req f F result suc t A E D).
  rewrite U, T.
  rewrite (upload_blob_refused POLL_ATTEMPTS platform f target storageRes _ S
             (not_2xx_not_ok _ N)).
  now rewrite <- app_assoc.
Qed.

(** C6, as the code has it.  On a storage failure the status code of
    the handler's response is the storage backend's own status code; it
    is 500 exactly when the backend answered 500. *)
Theorem storage_failure_status
    (POLL_ATTEMPTS : Z) (platform : Platform) (req : Request) (f : File)
    (target : StagedTarget) (storageRes : StorageResponse) (t : Trace) :
  file req = Some f ->
  staged platform f target ->
  on_storage platform (url target) (uploadForm target f) = Resolves storageRes ->
  ~ (200 <= status storageRes <= 299) ->
  exists resp t',
    upload POLL_ATTEMPTS platform req t = (Value resp, t') /\
    code resp = status storageRes /\
    (code resp = 500 <-> status storageRes = 500).
Proof.
  intros F (result & suc & rest & A & E & D & U & T) S N.
  eexists _, _. split.
  - apply upload_responds.
    rewrite (upload_try_after_staging POLL_ATTEMPTS platform req f F result suc t A E D).
    rewrite U, T.
    apply (upload_blob_refused POLL_ATTEMPTS platform f target storageRes _ S
             (not_2xx_not_ok _ N)).
  - cbn. split; [reflexivity | tauto].
Qed.

(** C7.  When staging went through with a target of N form parameters,
    the form posted to the target's [url] has N + 1 fields: one text
    field per parameter, with its name and value, in the order the
    platform gave them, then the single field "file" with the bytes of
    the upload, its original name and its MIME type.  That post is the
    only one the handler makes to the storage backend. *)
Theorem multipart_form_fields
    (POLL_ATTEMPTS : Z) (platform : Platform) (req : Request) (f : File)
    (target : StagedTarget) (t : Trace) :
  file req = Some f ->
  staged platform f target ->
  exists form evs,
    form = (map (fun p => TextField (name p) (value p)) (parameters target)
              ++ [FileField "file" (buffer f) (originalname f) (mimetype f)])%list /\
    List.length form = S (List.length (parameters target)) /\
    snd (upload POLL_ATTEMPTS platform req t) = (t ++ evs)%list /\
    filter is_storage evs = [StoragePost (url target) form].
Proof.
  intros F (result & suc & rest & A & E & D & U & T).
  destruct (upload_blob_onwards_events POLL_ATTEMPTS platform f target
              (t ++ [AdminStaged (stagedVars_of f)])%list) as (evs & Ev & Fs).
  exists (uploadForm target f),
         (AdminStaged (stagedVars_of f)
            :: StoragePost (url target) (uploadForm target f) :: evs).
  split; [apply uploadForm_fields |].
  split.
  { rewrite uploadForm_fields, length_app, length_map. cbn. lia. }
  split.
  - rewrite snd_upload.
    rewrite (upload_try_after_staging POLL_ATTEMPTS platform req f F result suc t A E D).
    rewrite U, T, Ev, <- app_assoc. reflexivity.
  - cbn. now rewrite Fs.
Qed.

(** C8.  [getShopifyContentType] is a function of the MIME type alone,
    defined on every string: a string that starts with "video/" gives
    "VIDEO", one that starts with "image/" gives "IMAGE", and any other
    string gives "FILE". *)
Theorem content_type_by_prefix (mimetype : string) :
  ((exists rest, mimetype = "video/" ++ rest) ->
   getShopifyContentType mimetype = "VIDEO") /\
  ((exists rest, mimetype = "image/" ++ rest) ->
   getShopifyContentType mimetype = "IMAGE") /\
  (~ (exists rest, mimetype = "video/" ++ rest) ->
   ~ (exists rest, mimetype = "image/" ++ rest) ->
   getShopifyContentType mimetype = "FILE").
Proof.
  unfold getShopifyContentType, JS.startsWith. repeat split.
  - intros (rest & ->). now rewrite prefix_app.
  - intros (rest & ->).
    replace (prefix "video/" ("image/" ++ rest)) with false by reflexivity.
    now rewrite prefix_app.
  - intros NV NI.
    destruct (prefix "video/" mimetype) eqn:V.
    { exfalso. apply NV. now apply prefix_split. }
    destruct (prefix "image/" mimetype) eqn:I.
    { exfalso. apply NI. now apply prefix_split. }
    reflexivity.
Qed.

(** C9, as the code has it.  When the staging call comes back without
    top-level GraphQL errors and with a non-empty [userErrors], the
    handler answers 422 with exactly that list as [errors], and the
    staging call is the only thing it did: no blob upload, no
    registration, no status query. *)
Theorem staging_user_errors_422
    (POLL_ATTEMPTS : Z) (platform : Platform) (req : Request) (f : File)
    (result : GraphQLResult StagedUploadsCreate) (suc : StagedUploadsCreate)
    (t : Trace) :
  file req = Some f ->
  on_stagedUploadsCreate platform (stagedVars_of f) = Resolves result ->
  errors result = [] ->
  data result = Some suc ->
  su_userErrors suc <> [] ->
  exists evs,
    upload POLL_ATTEMPTS platform req t
      = (Value {| code := 422; body := ErrorsBody (su_userErrors suc) |},
         (t ++ evs)%list) /\
    evs = [AdminStaged (stagedVars_of f)] /\
    filter is_storage evs = [] /\
    filter is_registration evs = [] /\
    status_queries evs = O.
Proof.
  intros F A E D U.
  exists [AdminStaged (stagedVars_of f)]. repeat split.
  apply upload_responds.
  rewrite (upload_try_after_staging POLL_ATTEMPTS platform req f F result suc t A E D).
  destruct (su_userErrors suc); [contradiction | reflexivity].
Qed.

(** C10.  When the staging call comes back with no GraphQL errors, an
    empty [userErrors] and an empty [stagedTargets], reading
    [resourceUrl] of the missing first target throws a TypeError; the
    catch-all handler turns it into a 500 response whose body is
    [{ error }] with the message of that error, after the staging call
    alone. *)
Theorem empty_staged_targets_500
    (POLL_ATTEMPTS : Z) (platform : Platform) (req : Request) (f : File)
    (result : GraphQLResult StagedUploadsCreate) (suc : StagedUploadsCreate)
    (t : Trace) :
  file req = Some f ->
  on_stagedUploadsCreate platform (stagedVars_of f) = Resolves result ->
  errors result = [] ->
  data result = Some suc ->
  su_userErrors suc = [] ->
  stagedTargets suc = [] ->
  upload_try POLL_ATTEMPTS platform req t
    = (Throws (JS.TypeError_read "resourceUrl"),
       (t ++ [AdminStaged (stagedVars_of f)])%list) /\
  upload POLL_ATTEMPTS platform req t
    = (Value {| code := 500; body := ErrorBody (JS.TypeError_read "resourceUrl") |},
       (t ++ [AdminStaged (stagedVars_of f)])%list).
Proof.
  intros F A E D U T.
  assert (X : upload_try POLL_ATTEMPTS platform req t
              = (Throws (JS.TypeError_read "resourceUrl"),
                 (t ++ [AdminStaged (stagedVars_of f)])%list)).
  { rewrite (upload_try_after_staging POLL_ATTEMPTS platform req f F result suc t A E D).
    now rewrite U, T. }
  split; [exact X | now apply upload_catches].
Qed.

(** ** The properties at the sample platforms *)

Lemma processing_always_pending (i : nat) :
  sees_pending Sample.processing Sample.gid i.
Proof.
  eexists. split; [reflexivity |]. intros u (St & _). discriminate St.
Defined.

Lemma sample_staged (storage : string -> FormData -> Settled StorageResponse)
    (nodes : nat -> JS.optstr -> Settled (GraphQLResult (option Node))) :
  staged {| on_stagedUploadsCreate := Sample.staging_ok;
            on_storage := storage;
            on_fileCreate := Sample.register_ok;
            on_node := nodes |} Sample.cat_png Sample.T.
Proof. do 3 eexists. repeat split; reflexivity. Defined.

(** Ceiling 2, PROCESSING on both attempts. *)
Lemma poller_exhausts_ceiling_witness :
  (forall i, (i < Z.to_nat 2)%nat -> sees_pending Sample.processing Sample.gid i) /\
  poller 2 Sample.processing Sample.gid []
    = (Value {| code := 500;
                body := TimeoutBody "File did not become READY in time" "PROCESSING" |},
       [AdminNode Sample.gid; Sleep 1000; AdminNode Sample.gid; Sleep 1000]).
Proof.
  assert (H : forall i, (i < Z.to_nat 2)%nat ->
                        sees_pending Sample.processing Sample.gid i).
  { intros i _. apply processing_always_pending. }
  split; [exact H |].
  destruct (poller_exhausts_ceiling 2 Sample.processing Sample.gid [] H)
    as (evs & reported & E & -> & _ & R & _).
  rewrite (R "PROCESSING" eq_refl ltac:(discriminate)) in E.
  exact E.
Defined.

(** Ceiling 2, PROCESSING and then a node without a status: every attempt
    saw a node that was not READY, a status was observed, and yet the
    status reported is "UNKNOWN".  Ceiling 1 and the empty status: the
    status reported is "UNKNOWN", not the status of the last attempt. *)
Lemma last_status_lost_reports_unknown :
  (forall i, (i < Z.to_nat 2)%nat -> sees_pending Sample.status_lost Sample.gid i) /\
  status_at Sample.status_lost Sample.gid 0 = Some "PROCESSING" /\
  status_at Sample.status_lost Sample.gid 1 = None /\
  poller 2 Sample.status_lost Sample.gid []
    = (Value {| code := 500;
                body := TimeoutBody "File did not become READY in time" "UNKNOWN" |},
       [AdminNode Sample.gid; Sleep 1000; AdminNode Sample.gid; Sleep 1000]) /\
  (forall i, (i < Z.to_nat 1)%nat -> sees_pending Sample.empty_status Sample.gid i) /\
  status_at Sample.empty_status Sample.gid 0 = Some "" /\
  poller 1 Sample.empty_status Sample.gid []
    = (Value {| code := 500;
                body := TimeoutBody "File did not become READY in time" "UNKNOWN" |},
       [AdminNode Sample.gid; Sleep 1000]) /\
  "UNKNOWN" <> "".
Proof.
  split.
  { intros i _. destruct i as [| i]; eexists; (split; [reflexivity |]);
      intros u (St & _); discriminate St. }
  split; [reflexivity |]. split; [reflexivity |].
  split; [vm_compute; reflexivity |].
  split.
  { intros i _. eexists. split; [reflexivity |]. intros u (St & _). discriminate St. }
  split; [reflexivity |]. split; [vm_compute; reflexivity | discriminate].
Qed.

(** PROCESSING on the first attempt, a null node on the second: the
    loop stops there, and the status reported is still PROCESSING, not
    "UNKNOWN". *)
Lemma null_node_keeps_earlier_status :
  pending_at Sample.vanishing Sample.gid 0 /\
  observed Sample.vanishing Sample.gid 1 = Some None /\
  poller 30 Sample.vanishing Sample.gid []
    = (Value {| code := 500;
                body := TimeoutBody "File did not become READY in time" "PROCESSING" |},
       [AdminNode Sample.gid; Sleep 1000; AdminNode Sample.gid]) /\
  "PROCESSING" <> "UNKNOWN".
Proof.
  split; [eexists; split; reflexivity |].
  split; [reflexivity |].
  split; [vm_compute; reflexivity | discriminate].
Qed.

Lemma poller_stops_on_null_node_witness :
  (1 < Z.to_nat 30)%nat /\
  (forall i, (i < 1)%nat -> pending_at Sample.vanishing Sample.gid i) /\
  observed Sample.vanishing Sample.gid 1 = Some None /\
  poller 30 Sample.vanishing Sample.gid []
    = (Value (timeout_response "PROCESSING"),
       [AdminNode Sample.gid; Sleep 1000; AdminNode Sample.gid]).
Proof.
  assert (K : (1 < Z.to_nat 30)%nat) by (vm_compute; lia).
  assert (P : forall i, (i < 1)%nat -> pending_at Sample.vanishing Sample.gid i).
  { intros i Hi. destruct i as [| i]; [| lia]. eexists. split; reflexivity. }
  assert (O : observed Sample.vanishing Sample.gid 1 = Some None) by reflexivity.
  split; [exact K |]. split; [exact P |]. split; [exact O |].
  destruct (poller_stops_on_null_node 30 Sample.vanishing Sample.gid [] 1 K P O)
    as (evs & reported & E & -> & _ & -> & _).
  exact E.
Defined.


(** PENDING, then READY with the image URL on the second attempt; and
    a video, PROCESSING, then READY with its sources on the second
    attempt, where the URL is that of the first source. *)
Lemma poller_succeeds_on_first_ready_witness :
  (1 < Z.to_nat 30)%nat /\
  (forall i, (i < 1)%nat -> sees_pending Sample.happy Sample.gid i) /\
  observed Sample.happy Sample.gid 1
    = Some (Some (Sample.image_node "READY" (Some "https://cdn/cat.png"))) /\
  ready_extractable (Sample.image_node "READY" (Some "https://cdn/cat.png"))
    "https://cdn/cat.png" /\
  poller 30 Sample.happy Sample.gid []
    = (Value {| code := 200; body := UrlBody (Some "https://cdn/cat.png") |},
       [AdminNode Sample.gid; Sleep 1000; AdminNode Sample.gid]) /\
  (forall i, (i < 1)%nat -> sees_pending Sample.video_late Sample.gid i) /\
  observed Sample.video_late Sample.gid 1
    = Some (Some (Sample.video_node (Some "READY") (Some Sample.video_sources))) /\
  ready_extractable (Sample.video_node (Some "READY") (Some Sample.video_sources))
    "https://cdn/cat.mp4" /\
  poller 30 Sample.video_late Sample.gid []
    = (Value {| code := 200; body := UrlBody (Some "https://cdn/cat.mp4") |},
       [AdminNode Sample.gid; Sleep 1000; AdminNode Sample.gid]).
Proof.
  assert (K : (1 < Z.to_nat 30)%nat) by (vm_compute; lia).
  assert (P : forall i, (i < 1)%nat -> sees_pending Sample.happy Sample.gid i).
  { intros i Hi. destruct i as [| i]; [| lia].
    eexists. split; [reflexivity |]. intros u (St & _). discriminate St. }
  assert (X : ready_extractable
                (Sample.image_node "READY" (Some "https://cdn/cat.png"))
                "https://cdn/cat.png").
  { split; [reflexivity |]. split; [discriminate |].
    right. left. split; [reflexivity |]. eexists. split; reflexivity. }
  assert (P' : forall i, (i < 1)%nat -> sees_pending Sample.video_late Sample.gid i).
  { intros i Hi. destruct i as [| i]; [| lia].
    eexists. split; [reflexivity |]. intros u (St & _). discriminate St. }
  assert (X' : ready_extractable
                 (Sample.video_node (Some "READY") (Some Sample.video_sources))
                 "https://cdn/cat.mp4").
  { split; [reflexivity |]. split; [discriminate |].
    right. right. split; [reflexivity |]. do 2 eexists. split; reflexivity. }
  split; [exact K |]. split; [exact P |]. split; [reflexivity |]. split; [exact X |].
  split.
  { destruct (poller_succeeds_on_first_ready 30 Sample.happy Sample.gid [] 1
                _ _ K P eq_refl X) as (evs & E & -> & _).
    exact E. }
  split; [exact P' |]. split; [reflexivity |]. split; [exact X' |].
  destruct (poller_succeeds_on_first_ready 30 Sample.video_late Sample.gid [] 1
              _ _ K P' eq_refl X') as (evs & E & -> & _).
  exact E.
Defined.

(** The storage backend answers 403 "Forbidden". *)
Lemma storage_failure_surfaced_witness :
  file Sample.req = Some Sample.cat_png /\
  staged Sample.forbidden Sample.cat_png Sample.T /\
  on_storage Sample.forbidden (url Sample.T) (uploadForm Sample.T Sample.cat_png)
    = Resolves {| status := 403; text := "Forbidden" |} /\
  ~ (200 <= 403 <= 299) /\
  upload 30 Sample.forbidden Sample.req []
    = (Value {| code := 403; body := StorageBody "Storage upload failed" "Forbidden" |},
       [AdminStaged (stagedVars_of Sample.cat_png);
        StoragePost (url Sample.T) (uploadForm Sample.T Sample.cat_png)]).
Proof.
  assert (N : ~ (200 <= 403 <= 299)) by lia.
  split; [reflexivity |]. split; [apply sample_staged |].
  split; [reflexivity |]. split; [exact N |].
  destruct (storage_failure_surfaced 30 Sample.forbidden Sample.req Sample.cat_png
              Sample.T {| status := 403; text := "Forbidden" |} []
              eq_refl (sample_staged _ _) eq_refl N)
    as (evs & E & -> & _).
  exact E.
Defined.

(** The response to a 403 from the storage backend has status 403, not 500. *)
Lemma storage_failure_not_500 :
  on_storage Sample.forbidden (url Sample.T) (uploadForm Sample.T Sample.cat_png)
    = Resolves {| status := 403; text := "Forbidden" |} /\
  ok {| status := 403; text := "Forbidden" |} = false /\
  fst (upload 30 Sample.forbidden Sample.req [])
    = Value {| code := 403; body := StorageBody "Storage upload failed" "Forbidden" |} /\
  403 <> 500.
Proof. repeat split; try reflexivity. discriminate. Qed.

Lemma storage_failure_status_witness :
  file Sample.req = Some Sample.cat_png /\
  staged Sample.forbidden Sample.cat_png Sample.T /\
  on_storage Sample.forbidden (url Sample.T) (uploadForm Sample.T Sample.cat_png)
    = Resolves {| status := 403; text := "Forbidden" |} /\
  ~ (200 <= 403 <= 299) /\
  exists resp t',
    upload 30 Sample.forbidden Sample.req [] = (Value resp, t') /\
    code resp = 403.
Proof.
  assert (N : ~ (200 <= 403 <= 299)) by lia.
  split; [reflexivity |]. split; [apply sample_staged |].
  split; [reflexivity |]. split; [exact N |].
  destruct (storage_failure_status 30 Sample.forbidden Sample.req Sample.cat_png
              Sample.T {| status := 403; text := "Forbidden" |} []
              eq_refl (sample_staged _ _) eq_refl N)
    as (resp & t' & E & C & _).
  exists resp, t'. split; [exact E | exact C].
Defined.

(** The three parameters of the sample target, then the file. *)
Lemma multipart_form_fields_witness :
  file Sample.req = Some Sample.cat_png /\
  staged Sample.happy Sample.cat_png Sample.T /\
  exists evs,
    snd (upload 30 Sample.happy Sample.req []) = evs /\
    filter is_storage evs
    = [StoragePost "https://storage.test/upload"
         [TextField "key" "tmp/cat.png"; TextField "policy" "p0";
          TextField "acl" "private";
          FileField "file" (buffer Sample.cat_png) "cat.png" "image/png"]].
Proof.
  split; [reflexivity |]. split; [apply sample_staged |].
  destruct (multipart_form_fields 30 Sample.happy Sample.req Sample.cat_png Sample.T []
              eq_refl (sample_staged _ _))
    as (form & evs & -> & _ & E & F).
  exists evs. split; [exact E | exact F].
Defined.

Lemma content_type_by_prefix_witness :
  getShopifyContentType "video/mp4" = "VIDEO" /\
  getShopifyContentType "image/png" = "IMAGE" /\
  getShopifyContentType "application/pdf" = "FILE".
Proof.
  split; [| split].
  - apply (proj1 (content_type_by_prefix "video/mp4")).
    exists "mp4". reflexivity.
  - apply (proj1 (proj2 (content_type_by_prefix "image/png"))).
    exists "png". reflexivity.
  - apply (proj2 (proj2 (content_type_by_prefix "application/pdf"))).
    + intros (rest & H). discriminate H.
    + intros (rest & H). discriminate H.
Defined.

(** Staging answers with the user error of the design document. *)
Lemma staging_user_errors_422_witness :
  file Sample.req = Some Sample.cat_png /\
  on_stagedUploadsCreate Sample.rejected (stagedVars_of Sample.cat_png)
    = Sample.answer {| stagedTargets := []; su_userErrors := Sample.filename_required |} /\
  Sample.filename_required <> [] /\
  upload 30 Sample.rejected Sample.req []
    = (Value {| code := 422; body := ErrorsBody Sample.filename_required |},
       [AdminStaged (stagedVars_of Sample.cat_png)]).
Proof.
  assert (U : Sample.filename_required <> []) by discriminate.
  split; [reflexivity |]. split; [reflexivity |]. split; [exact U |].
  destruct (staging_user_errors_422 30 Sample.rejected Sample.req Sample.cat_png
              _ _ [] eq_refl eq_refl eq_refl eq_refl U)
    as (evs & E & -> & _).
  exact E.
Defined.

(** Staging answers with GraphQL errors beside a payload that carries
    user errors: [callAdmin] throws, and the answer is 500, not 422. *)
Lemma user_errors_beside_graphql_errors :
  on_stagedUploadsCreate Sample.throttled (stagedVars_of Sample.cat_png)
    = Resolves {| errors := ["{}"];
                  data := Some {| stagedTargets := [];
                                  su_userErrors := Sample.filename_required |} |} /\
  Sample.filename_required <> [] /\
  upload 30 Sample.throttled Sample.req []
    = (Value {| code := 500; body := ErrorBody "GraphQL errors: [{}]" |},
       [AdminStaged (stagedVars_of Sample.cat_png)]) /\
  500 <> 422.
Proof.
  split; [reflexivity |]. split; [discriminate |].
  split; [vm_compute; reflexivity | discriminate].
Qed.

(** Staging answers with no user errors and no targets. *)
Lemma empty_staged_targets_500_witness :
  file Sample.req = Some Sample.cat_png /\
  on_stagedUploadsCreate Sample.no_target (stagedVars_of Sample.cat_png)
    = Sample.answer {| stagedTargets := []; su_userErrors := [] |} /\
  upload 30 Sample.no_target Sample.req []
    = (Value {| code := 500;
                body := ErrorBody
                  "Cannot read properties of undefined (reading 'resourceUrl')" |},
       [AdminStaged (stagedVars_of Sample.cat_png)]).
Proof.
  split; [reflexivity |]. split; [reflexivity |].
  exact (proj2 (empty_staged_targets_500 30 Sample.no_target Sample.req Sample.cat_png
                  _ _ [] eq_refl eq_refl eq_refl eq_refl eq_refl eq_refl)).
Defined.

(** ** Every run of the polling loop *)

Section Runs.

Variable platform : Platform.
Variable created_id : JS.optstr.

Lemma poll_body_fails i v t msg :
  poll_error platform created_id i = Some msg ->
  poll_body platform created_id i v t
  = (Throws msg, (t ++ [AdminNode created_id])%list).
Proof.
  unfold poll_error, admin_error, poll_body, callAdmin, bind, emit, await, throw, ret.
  destruct (on_node platform i created_id) as [m | result].
  - intros [= ->]. reflexivity.
  - destruct (errors result).
    + destruct (data result); [discriminate |]. intros [= <-]. reflexivity.
    + intros [= <-]. reflexivity.
Qed.

(** What an attempt can see. *)
Lemma attempt_cases i :
  (exists msg, poll_error platform created_id i = Some msg) \/
  observed platform created_id i = Some None \/
  (exists node, observed platform created_id i = Some (Some node) /\
                ready_with_url node = None) \/
  (exists node u, observed platform created_id i = Some (Some node) /\
                  ready_with_url node = Some u).
Proof.
  unfold poll_error, admin_error, observed.
  destruct (on_node platform i created_id) as [m | result]; [eauto |].
  destruct (errors result); [| eauto].
  destruct (data result) as [[node |] |]; [| auto | eauto].
  destruct (ready_with_url node) as [u |] eqn:R; eauto 8.
Qed.

(** A pending attempt in front of a run is a longer run. *)
Lemma PollRun_after_pending i n v node o evs :
  observed platform created_id i = Some (Some node) ->
  ready_with_url node = None ->
  PollRun platform created_id (S i) n
    {| finalUrl := finalUrl v; lastStatus := fileStatus node |} o evs ->
  PollRun platform created_id i (S n) v o
    (AdminNode created_id :: Sleep 1000 :: evs).
Proof.
  intros O R Run.
  assert (P0 : pending_at platform created_id i) by (exists node; auto).
  assert (C : forall k,
             carried_status platform created_id (S i) k
               {| finalUrl := finalUrl v; lastStatus := fileStatus node |}
             = carried_status platform created_id i (S k) v).
  { intros [| k]; cbn.
    - unfold status_at. now rewrite Nat.add_0_r, O.
    - f_equal. lia. }
  assert (P : forall k,
             (forall j, (S i <= j < S i + k)%nat -> pending_at platform created_id j) ->
             forall j, (i <= j < i + S k)%nat -> pending_at platform created_id j).
  { intros k H j Hj. destruct (Nat.eq_dec j i) as [-> | N]; [exact P0 |].
    apply H. lia. }
  inversion Run as [H | k K H Ob | k nd u K H Ob Rd | k msg K H Er]; subst; cbn [finalUrl].
  - rewrite C. apply (RunExhausted platform created_id i (S n) v). now apply P.
  - rewrite C.
    apply (RunVanished platform created_id i (S n) v (S k)); [lia | now apply P |].
    now replace (i + S k)%nat with (S i + k)%nat by lia.
  - apply (RunReady platform created_id i (S n) v (S k) nd u); [lia | now apply P | | exact Rd].
    now replace (i + S k)%nat with (S i + k)%nat by lia.
  - apply (RunFailed platform created_id i (S n) v (S k) msg); [lia | now apply P |].
    now replace (i + S k)%nat with (S i + k)%nat by lia.
Qed.

(** The loop makes one of the runs of [PollRun], whatever the platform
    answers. *)
Lemma poll_loop_run n : forall i v t,
  exists o evs,
    poll_loop platform created_id n i v t = (o, (t ++ evs)%list) /\
    PollRun platform created_id i n v o evs.
Proof.
  induction n as [| n IH]; intros i v t.
  - exists (Value v), []. split; [cbn; now rewrite app_nil_r |].
    pose proof (RunExhausted platform created_id i 0 v) as E.
    cbn in E. destruct v. apply E. intros j Hj. lia.
  - assert (Z0 : forall j, (i <= j < i + 0)%nat -> pending_at platform created_id j)
      by (intros j Hj; lia).
    cbn [poll_loop]. unfold bind at 1.
    destruct (attempt_cases i) as [(msg & Er) | [Ob | [(node & Ob & R) | (node & u & Ob & R)]]].
    + rewrite (poll_body_fails i v t msg Er).
      exists (Throws msg), [AdminNode created_id]. split; [reflexivity |].
      apply (RunFailed platform created_id i (S n) v 0 msg); [lia | exact Z0 |].
      now rewrite Nat.add_0_r.
    + rewrite (poll_body_null platform created_id i v t Ob). cbn [fst snd ret].
      exists (Value v), [AdminNode created_id]. split; [reflexivity |].
      pose proof (RunVanished platform created_id i (S n) v 0) as E.
      cbn in E. destruct v. apply E; [lia | exact Z0 |].
      now rewrite Nat.add_0_r.
    + rewrite (poll_body_pending platform created_id i v t node Ob R). cbn [fst snd].
      destruct (IH (S i) {| finalUrl := finalUrl v; lastStatus := fileStatus node |}
                  (t ++ [AdminNode created_id; Sleep 1000])%list) as (o & evs & E & Run).
      exists o, (AdminNode created_id :: Sleep 1000 :: evs). split.
      * rewrite E, <- app_assoc. reflexivity.
      * now apply PollRun_after_pending with node.
    + rewrite (poll_body_ready platform created_id i v t node u Ob R). cbn [fst snd ret].
      exists (Value {| finalUrl := Some u; lastStatus := fileStatus node |}),
             [AdminNode created_id].
      split; [reflexivity |].
      apply (RunReady platform created_id i (S n) v 0 node u); [lia | exact Z0 | | exact R].
      now rewrite Nat.add_0_r.
Qed.

(** The events of a run are those of a polling phase within [n] queries. *)
Lemma PollRun_events i n v o evs :
  PollRun platform created_id i n v o evs -> polling_events created_id n evs.
Proof.
  intros Run. unfold polling_events.
  inversion Run as [H | k K H Ob | k nd u K H Ob Rd | k msg K H Er]; subst.
  - exists n, []. rewrite app_nil_r. cbn. repeat split; auto. lia.
  - exists k, [AdminNode created_id]. cbn. repeat split; auto. lia.
  - exists k, [AdminNode created_id]. cbn. repeat split; auto. lia.
  - exists k, [AdminNode created_id]. cbn. repeat split; auto. lia.
Qed.

End Runs.

(** ** Further facts about values and calls *)

Lemma or_else_nonempty (v : JS.optstr) (dflt : string) :
  dflt <> "" -> JS.or_else v dflt <> "".
Proof.
  intros N. destruct v as [s |]; cbn; [| exact N].
  destruct (String.eqb_spec s ""); assumption.
Qed.


Lemma ok_2xx (r : StorageResponse) :
  ok r = true <-> 200 <= status r <= 299.
Proof.
  unfold ok. rewrite andb_true_iff, Z.leb_le, Z.ltb_lt. lia.
Qed.

Lemma callAdmin_fails {D} (call : Event) (answer : Settled (GraphQLResult D)) msg t :
  admin_error answer = Some msg ->
  callAdmin call answer t = (Throws msg, (t ++ [call])%list).
Proof.
  unfold admin_error, callAdmin, bind, emit, await, throw, ret.
  destruct answer as [m | result]; [intros [= ->]; reflexivity |].
  destruct (errors result); [discriminate | intros [= <-]; reflexivity].
Qed.

Lemma callAdmin_cases {D} (call : Event) (answer : Settled (GraphQLResult D)) t :
  (exists msg, callAdmin call answer t = (Throws msg, (t ++ [call])%list)) \/
  (exists result, answer = Resolves result /\ errors result = [] /\
                  callAdmin call answer t = (Value (data result), (t ++ [call])%list)).
Proof.
  destruct (admin_error answer) as [msg |] eqn:E.
  - left. exists msg. now apply callAdmin_fails.
  - right. unfold admin_error in E. destruct answer as [m | result]; [discriminate |].
    destruct (errors result) eqn:Er; [| discriminate].
    exists result. repeat split; auto. now apply callAdmin_data.
Qed.

Lemma status_queries_polling (created_id : JS.optstr) (budget : nat) (evs : Trace) :
  polling_events created_id budget evs ->
  (status_queries evs <= budget)%nat /\
  (List.length (filter is_sleep evs) <= status_queries evs)%nat.
Proof.
  intros (k & tail & -> & T & B).
  assert (Sl : List.length (filter is_sleep (pending_events created_id k)) = k).
  { induction k as [| k IH]; [reflexivity |]. cbn. rewrite IH by (cbn in B; lia).
    reflexivity. }
  rewrite status_queries_app, status_queries_pending, filter_app, length_app, Sl.
  destruct T as [-> | ->]; cbn in *; lia.
Qed.

(** ** What the answers of the poller mean *)



(** An attempt that throws, after pending attempts, makes the poller
    throw. *)
Lemma poller_fails_at
    (POLL_ATTEMPTS : Z) (platform : Platform) (created_id : JS.optstr) (t : Trace)
    (k : nat) (msg : string) :
  (k < Z.to_nat POLL_ATTEMPTS)%nat ->
  (forall i, (i < k)%nat -> pending_at platform created_id i) ->
  poll_error platform created_id k = Some msg ->
  poller POLL_ATTEMPTS platform created_id t
  = (Throws msg, (t ++ pending_events created_id k ++ [AdminNode created_id])%list).
Proof.
  intros K P Er. unfold poller.
  replace (Z.to_nat POLL_ATTEMPTS) with (k + S (Z.to_nat POLL_ATTEMPTS - S k))%nat by lia.
  unfold bind at 1.
  rewrite poll_loop_pending by (intros j Hj; apply P; lia).
  cbn [Nat.add poll_loop]. unfold bind at 1.
  rewrite (poll_body_fails platform created_id k _ _ msg Er).
  now rewrite <- app_assoc.
Qed.

(** ** The handler after the blob upload *)

Section Registration.

Variable POLL_ATTEMPTS : Z.
Variable platform : Platform.
Variable f : File.
Variable target : StagedTarget.
Hypothesis is_stored : stored platform f target.

Lemma upload_blob_registration_fails msg t :
  admin_error (on_fileCreate platform (fileCreateVars_of target f)) = Some msg ->
  upload_blob_onwards POLL_ATTEMPTS platform target f t
  = (Throws msg,
     (t ++ [StoragePost (url target) (uploadForm target f);
          AdminFileCreate (fileCreateVars_of target f)])%list).
Proof.
  intros Er. destruct is_stored as (storageRes & S & K).
  unfold upload_blob_onwards. cbv zeta.
  unfold bind at 1. cbn [emit]. unfold bind at 1. rewrite S. cbn [await ret].
  rewrite K. cbn [negb]. unfold bind at 1.
  rewrite (callAdmin_fails _ _ msg _ Er). now rewrite <- app_assoc.
Qed.

Lemma upload_blob_after_registration result fc t :
  on_fileCreate platform (fileCreateVars_of target f) = Resolves result ->
  errors result = [] ->
  data result = Some fc ->
  let t' := (t ++ [StoragePost (url target) (uploadForm target f);
                   AdminFileCreate (fileCreateVars_of target f)])%list in
  upload_blob_onwards POLL_ATTEMPTS platform target f t =
  match fc_userErrors fc with
  | _ :: _ => (Value (status_json 422 (ErrorsBody (fc_userErrors fc))), t')
  | [] =>
      match files fc with
      | [] => (Throws (JS.TypeError_read "__typename"), t')
      | created :: _ => poller POLL_ATTEMPTS platform (id created) t'
      end
  end.
Proof.
  intros A E D t'. destruct is_stored as (storageRes & S & K).
  unfold upload_blob_onwards. cbv zeta.
  unfold bind at 1. cbn [emit]. unfold bind at 1. rewrite S. cbn [await ret].
  rewrite K. cbn [negb].
  rewrite (bind_value _ _ _ _ _ (callAdmin_data _ _ _ _ A E)).
  rewrite D. cbn [destructure]. unfold bind at 1. cbn [ret].
  rewrite <- app_assoc. cbn [app]. fold t'.
  destruct (fc_userErrors fc); [| reflexivity].
  destruct (files fc) as [| created rest]; reflexivity.
Qed.

End Registration.

(** ** The handler from end to end *)

Section Pipeline.

Variable POLL_ATTEMPTS : Z.
Variable platform : Platform.
Variable req : Request.
Variable f : File.
Hypothesis has_file : file req = Some f.

Lemma upload_try_staging_fails msg t :
  admin_error (on_stagedUploadsCreate platform (stagedVars_of f)) = Some msg ->
  upload_try POLL_ATTEMPTS platform req t
  = (Throws msg, (t ++ [AdminStaged (stagedVars_of f)])%list).
Proof.
  intros Er. unfold upload_try. rewrite has_file. cbv zeta. unfold bind at 1.
  now rewrite (callAdmin_fails _ _ msg _ Er).
Qed.

Lemma upload_try_reaches_blob target t :
  staged platform f target ->
  upload_try POLL_ATTEMPTS platform req t
  = upload_blob_onwards POLL_ATTEMPTS platform target f
      (t ++ [AdminStaged (stagedVars_of f)])%list.
Proof.
  intros (result & suc & rest & A & E & D & U & T).
  rewrite (upload_try_after_staging POLL_ATTEMPTS platform req f has_file
             result suc t A E D).
  now rewrite U, T.
Qed.

Lemma upload_try_reaches_poller target created t :
  staged platform f target ->
  stored platform f target ->
  registered platform f target created ->
  upload_try POLL_ATTEMPTS platform req t
  = poller POLL_ATTEMPTS platform (id created)
      (t ++ [AdminStaged (stagedVars_of f);
             StoragePost (url target) (uploadForm target f);
             AdminFileCreate (fileCreateVars_of target f)])%list.
Proof.
  intros Sg St (result & fc & rest & A & E & D & U & Fi).
  rewrite (upload_try_reaches_blob target t Sg).
  rewrite (upload_blob_after_registration POLL_ATTEMPTS platform f target St
             result fc _ A E D).
  rewrite U, Fi, <- app_assoc. reflexivity.
Qed.

End Pipeline.

(** ** What holds of every request *)

Lemma poller_invariant (POLL_ATTEMPTS : Z) (platform : Platform)
    (created_id : JS.optstr) (t : Trace) :
  exists o evs,
    poller POLL_ATTEMPTS platform created_id t = (o, (t ++ evs)%list) /\
    polling_events created_id (Z.to_nat POLL_ATTEMPTS) evs /\
    match o with
    | Value r => response_consistent r
    | Throws _ => True
    end.
Proof.
  unfold poller, bind.
  destruct (poll_loop_run platform created_id (Z.to_nat POLL_ATTEMPTS) 0
              {| finalUrl := None; lastStatus := None |} t) as (o & evs & E & Run).
  rewrite E. apply PollRun_events in Run.
  destruct o as [v | msg].
  - destruct (JS.truthy (finalUrl v)) eqn:T; cbn [negb ret].
    + eexists _, evs. split; [reflexivity |]. split; [exact Run |].
      cbn. auto.
    + eexists _, evs. split; [reflexivity |]. split; [exact Run |].
      cbn. split; [reflexivity |]. apply or_else_nonempty. discriminate.
  - exists (Throws msg), evs. auto.
Qed.

Lemma upload_blob_invariant (POLL_ATTEMPTS : Z) (platform : Platform)
    (target : StagedTarget) (f : File) (t : Trace) :
  exists o evs,
    upload_blob_onwards POLL_ATTEMPTS platform target f t
      = (o, (t ++ StoragePost (url target) (uploadForm target f) :: evs)%list) /\
    ((evs = [] /\ ~ stored platform f target) \/
     exists created_id polls,
       evs = AdminFileCreate (fileCreateVars_of target f) :: polls /\
       polling_events created_id (Z.to_nat POLL_ATTEMPTS) polls) /\
    match o with
    | Value r => response_consistent r
    | Throws _ => True
    end.
Proof.
  assert (Nil : forall i, polling_events i (Z.to_nat POLL_ATTEMPTS) []).
  { intros i. exists O, []. cbn. repeat split; auto. lia. }
  unfold upload_blob_onwards. cbv zeta. unfold bind at 1. cbn [emit].
  unfold bind at 1.
  destruct (on_storage platform (url target) (uploadForm target f))
    as [msg | storageRes] eqn:S; cbn [await throw ret].
  { exists (Throws msg), []. split; [reflexivity |]. split; [| exact I].
    left. split; [reflexivity |]. intros (sr & S' & _). congruence. }
  destruct (ok storageRes) eqn:K; cbn [negb].
  2:{ eexists _, []. split; [reflexivity |]. split.
      - left. split; [reflexivity |]. intros (sr & S' & K'). congruence.
      - cbn. intros R. apply ok_2xx in R. congruence. }
  unfold bind at 1.
  destruct (callAdmin_cases (AdminFileCreate (fileCreateVars_of target f))
              (on_fileCreate platform (fileCreateVars_of target f))
              (t ++ [StoragePost (url target) (uploadForm target f)])%list)
    as [(msg & C) | (result & A & E & C)]; rewrite C.
  { exists (Throws msg), [AdminFileCreate (fileCreateVars_of target f)].
    split; [now rewrite <- app_assoc |]. split; [| exact I].
    right. exists None, []. auto. }
  destruct (data result) as [fc |]; cbn [destructure].
  2:{ eexists _, [AdminFileCreate (fileCreateVars_of target f)].
      split; [cbn; now rewrite <- app_assoc |]. split; [| exact I].
      right. exists None, []. auto. }
  unfold bind at 1. cbn [ret].
  destruct (fc_userErrors fc) as [| e es] eqn:U.
  2:{ eexists _, [AdminFileCreate (fileCreateVars_of target f)].
      split; [now rewrite <- app_assoc |]. split.
      - right. exists None, []. auto.
      - cbn. split; [reflexivity | discriminate]. }
  destruct (files fc) as [| created rest]; cbn [first_then_read].
  { eexists _, [AdminFileCreate (fileCreateVars_of target f)].
    split; [cbn; now rewrite <- app_assoc |]. split; [| exact I].
    right. exists None, []. auto. }
  unfold bind at 1. cbn [ret].
  destruct (poller_invariant POLL_ATTEMPTS platform (id created)
              ((t ++ [StoragePost (url target) (uploadForm target f)]) ++
               [AdminFileCreate (fileCreateVars_of target f)])%list)
    as (o & polls & E' & P & R).
  exists o, (AdminFileCreate (fileCreateVars_of target f) :: polls).
  split; [rewrite E', <- !app_assoc; reflexivity |].
  split; [| exact R]. right. exists (id created), polls. auto.
Qed.

Lemma upload_try_invariant (POLL_ATTEMPTS : Z) (platform : Platform)
    (req : Request) (t : Trace) :
  exists o evs,
    upload_try POLL_ATTEMPTS platform req t = (o, (t ++ evs)%list) /\
    phase_ordered (Z.to_nat POLL_ATTEMPTS) evs /\
    match o with
    | Value r => response_consistent r
    | Throws _ => True
    end.
Proof.
  unfold upload_try. destruct (file req) as [f |].
  2:{ eexists _, []. split; [unfold ret; now rewrite app_nil_r |].
      cbn. auto. }
  cbv zeta. unfold bind at 1.
  destruct (callAdmin_cases (AdminStaged (stagedVars_of f))
              (on_stagedUploadsCreate platform (stagedVars_of f)) t)
    as [(msg & C) | (result & A & E & C)]; rewrite C.
  { exists (Throws msg), [AdminStaged (stagedVars_of f)]. cbn. auto. }
  destruct (data result) as [suc |]; cbn [destructure].
  2:{ eexists _, [AdminStaged (stagedVars_of f)]. cbn. auto. }
  unfold bind at 1. cbn [ret].
  destruct (su_userErrors suc) as [| e es] eqn:U.
  2:{ eexists _, [AdminStaged (stagedVars_of f)].
      split; [reflexivity |]. cbn. repeat split; auto. discriminate. }
  destruct (stagedTargets suc) as [| target rest]; cbn [first_then_read].
  { eexists _, [AdminStaged (stagedVars_of f)]. cbn. auto. }
  unfold bind at 1. cbn [ret].
  destruct (upload_blob_invariant POLL_ATTEMPTS platform target f
              (t ++ [AdminStaged (stagedVars_of f)])%list)
    as (o & evs & E' & Sh & R).
  exists o, (AdminStaged (stagedVars_of f)
               :: StoragePost (url target) (uploadForm target f) :: evs).
  split; [rewrite E', <- app_assoc; reflexivity |].
  split; [| exact R].
  destruct Sh as [(-> & _) | (i & polls & -> & P)]; cbn; [exact I |].
  exists i. exact P.
Qed.

Lemma polling_events_only (created_id : JS.optstr) (budget : nat) (evs : Trace) :
  polling_events created_id budget evs ->
  filter is_staging evs = [] /\
  filter is_storage evs = [] /\
  filter is_registration evs = [].
Proof.
  intros (k & tail & -> & T & _).
  assert (P : filter is_staging (pending_events created_id k) = [] /\
              filter is_storage (pending_events created_id k) = [] /\
              filter is_registration (pending_events created_id k) = []).
  { induction k; cbn; auto. }
  destruct P as (P1 & P2 & P3).
  rewrite !filter_app, P1, P2, P3.
  destruct T as [-> | ->]; cbn; auto.
Qed.

Lemma phase_ordered_counts (budget : nat) (evs : Trace) :
  phase_ordered budget evs ->
  (List.length (filter is_staging evs) <= 1)%nat /\
  (List.length (filter is_storage evs) <= 1)%nat /\
  (List.length (filter is_registration evs) <= 1)%nat /\
  (status_queries evs <= budget)%nat /\
  (List.length (filter is_sleep evs) <= status_queries evs)%nat.
Proof.
  unfold status_queries.
  destruct evs as [| e1 evs]; cbn; [intros _; repeat split; lia |].
  destruct e1; try contradiction.
  destruct evs as [| e2 evs]; cbn; [intros _; repeat split; lia |].
  destruct e2; try contradiction.
  destruct evs as [| e3 evs]; cbn; [intros _; repeat split; lia |].
  destruct e3; try contradiction.
  intros (i & P).
  destruct (polling_events_only _ _ _ P) as (F1 & F2 & F3).
  destruct (status_queries_polling _ _ _ P) as (Q & Sl).
  unfold status_queries in Q, Sl.
  rewrite F1, F2, F3. cbn. repeat split; lia.
Qed.

(** ** The other answers of the handler *)

(** X3.  A request without a file is answered 400 with
    [{ error: "No file provided" }] and makes no outbound call. *)
Theorem no_file_400
    (POLL_ATTEMPTS : Z) (platform : Platform) (req : Request) (t : Trace) :
  file req = None ->
  upload POLL_ATTEMPTS platform req t
  = (Value {| code := 400; body := ErrorBody "No file provided" |}, t).
Proof.
  intros F. apply upload_responds. unfold upload_try. now rewrite F.
Qed.

(** X4.  When the staging call fails, because the request to the Admin
    API is rejected or because its answer carries GraphQL errors (even
    beside a payload with user errors), the handler answers 500 with the
    message of the error as [error]; it made the staging call and
    nothing else. *)
Theorem staging_failure_500
    (POLL_ATTEMPTS : Z) (platform : Platform) (req : Request) (f : File)
    (msg : string) (t : Trace) :
  file req = Some f ->
  admin_error (on_stagedUploadsCreate platform (stagedVars_of f)) = Some msg ->
  upload POLL_ATTEMPTS platform req t
  = (Value {| code := 500; body := ErrorBody msg |},
     (t ++ [AdminStaged (stagedVars_of f)])%list).
Proof.
  intros F Er. apply upload_catches.
  now apply upload_try_staging_fails.
Qed.

(** X5.  When the post to the storage backend is rejected (no HTTP
    answer at all), the handler answers 500 with the message of the
    error; the registration is not attempted. *)
Theorem storage_unreachable_500
    (POLL_ATTEMPTS : Z) (platform : Platform) (req : Request) (f : File)
    (target : StagedTarget) (msg : string) (t : Trace) :
  file req = Some f ->
  staged platform f target ->
  on_storage platform (url target) (uploadForm target f) = Rejects msg ->
  upload POLL_ATTEMPTS platform req t
  = (Value {| code := 500; body := ErrorBody msg |},
     (t ++ [AdminStaged (stagedVars_of f);
            StoragePost (url target) (uploadForm target f)])%list).
Proof.
  intros F Sg S. apply upload_catches.
  rewrite (upload_try_reaches_blob POLL_ATTEMPTS platform req f F target t Sg).
  unfold upload_blob_onwards. cbv zeta. unfold bind at 1. cbn [emit].
  unfold bind at 1. rewrite S. cbn. now rewrite <- app_assoc.
Qed.

(** X6.  When staging went through and the storage backend answered
    200..299, the handler registers the file, once and right after the
    upload: [fileCreate] is called with the target's [resourceUrl] (not
    the [url] the blob was posted to) as [originalSource], the original
    file name, and the content type derived from the MIME type.  What
    follows is polling only. *)
Theorem registration_follows_upload
    (POLL_ATTEMPTS : Z) (platform : Platform) (req : Request) (f : File)
    (target : StagedTarget) (t : Trace) :
  file req = Some f ->
  staged platform f target ->
  stored platform f target ->
  exists created_id polls,
    snd (upload POLL_ATTEMPTS platform req t)
    = (t ++ [AdminStaged (stagedVars_of f);
             StoragePost (url target) (uploadForm target f);
             AdminFileCreate {| originalSource := resourceUrl target;
                                fc_filename := originalname f;
                                contentType := getShopifyContentType (mimetype f) |}]
         ++ polls)%list /\
    polling_events created_id (Z.to_nat POLL_ATTEMPTS) polls /\
    filter is_registration polls = [] /\
    filter is_storage polls = [].
Proof.
  intros F Sg St. rewrite snd_upload.
  rewrite (upload_try_reaches_blob POLL_ATTEMPTS platform req f F target t Sg).
  destruct (upload_blob_invariant POLL_ATTEMPTS platform target f
              (t ++ [AdminStaged (stagedVars_of f)])%list)
    as (o & evs & E & [(_ & N) | (i & polls & -> & P)] & _); [contradiction |].
  exists i, polls. rewrite E, <- app_assoc.
  destruct (polling_events_only _ _ _ P) as (_ & F2 & F3). auto.
Qed.

(** X7.  When the registration call fails, because the request is
    rejected or its answer carries GraphQL errors, the handler answers
    500 with the message of the error and never queries a status. *)
Theorem registration_failure_500
    (POLL_ATTEMPTS : Z) (platform : Platform) (req : Request) (f : File)
    (target : StagedTarget) (msg : string) (t : Trace) :
  file req = Some f ->
  staged platform f target ->
  stored platform f target ->
  admin_error (on_fileCreate platform (fileCreateVars_of target f)) = Some msg ->
  exists evs,
    upload POLL_ATTEMPTS platform req t
      = (Value {| code := 500; body := ErrorBody msg |}, (t ++ evs)%list) /\
    evs = [AdminStaged (stagedVars_of f);
           StoragePost (url target) (uploadForm target f);
           AdminFileCreate (fileCreateVars_of target f)] /\
    status_queries evs = O.
Proof.
  intros F Sg St Er. eexists. split; [| split; reflexivity].
  apply upload_catches.
  rewrite (upload_try_reaches_blob POLL_ATTEMPTS platform req f F target t Sg).
  rewrite (upload_blob_registration_fails POLL_ATTEMPTS platform f target St msg _ Er).
  now rewrite <- app_assoc.
Qed.

(** X8.  When the registration comes back without GraphQL errors and
    with a non-empty [userErrors], the handler answers 422 with exactly
    that list as [errors] and never queries a status. *)
Theorem registration_user_errors_422
    (POLL_ATTEMPTS : Z) (platform : Platform) (req : Request) (f : File)
    (target : StagedTarget) (result : GraphQLResult FileCreate) (fc : FileCreate)
    (t : Trace) :
  file req = Some f ->
  staged platform f target ->
  stored platform f target ->
  on_fileCreate platform (fileCreateVars_of target f) = Resolves result ->
  errors result = [] ->
  data result = Some fc ->
  fc_userErrors fc <> [] ->
  exists evs,
    upload POLL_ATTEMPTS platform req t
      = (Value {| code := 422; body := ErrorsBody (fc_userErrors fc) |},
         (t ++ evs)%list) /\
    evs = [AdminStaged (stagedVars_of f);
           StoragePost (url target) (uploadForm target f);
           AdminFileCreate (fileCreateVars_of target f)] /\
    status_queries evs = O.
Proof.
  intros F Sg St A E D U. eexists. split; [| split; reflexivity].
  apply upload_responds.
  rewrite (upload_try_reaches_blob POLL_ATTEMPTS platform req f F target t Sg).
  rewrite (upload_blob_after_registration POLL_ATTEMPTS platform f target St
             result fc _ A E D).
  destruct (fc_userErrors fc); [contradiction |].
  now rewrite <- app_assoc.
Qed.

(** X9.  When the registration comes back with no GraphQL errors, no
    user errors and an empty [files], reading [__typename] of the missing
    first file throws; the handler answers 500 with the message of that
    TypeError and never queries a status. *)
Theorem registration_without_file_500
    (POLL_ATTEMPTS : Z) (platform : Platform) (req : Request) (f : File)
    (target : StagedTarget) (result : GraphQLResult FileCreate) (fc : FileCreate)
    (t : Trace) :
  file req = Some f ->
  staged platform f target ->
  stored platform f target ->
  on_fileCreate platform (fileCreateVars_of target f) = Resolves result ->
  errors result = [] ->
  data result = Some fc ->
  fc_userErrors fc = [] ->
  files fc = [] ->
  exists evs,
    upload POLL_ATTEMPTS platform req t
      = (Value {| code := 500; body := ErrorBody (JS.TypeError_read "__typename") |},
         (t ++ evs)%list) /\
    evs = [AdminStaged (stagedVars_of f);
           StoragePost (url target) (uploadForm target f);
           AdminFileCreate (fileCreateVars_of target f)] /\
    status_queries evs = O.
Proof.
  intros F Sg St A E D U Fi. eexists. split; [| split; reflexivity].
  apply upload_catches.
  rewrite (upload_try_reaches_blob POLL_ATTEMPTS platform req f F target t Sg).
  rewrite (upload_blob_after_registration POLL_ATTEMPTS platform f target St
             result fc _ A E D).
  rewrite U, Fi. now rewrite <- app_assoc.
Qed.

(** X10.  Once staging, blob upload and registration went through, the
    handler polls the [id] of the first created file, and its answer is
    the poller's: the response of the poller as it is, or, when the
    poller throws, 500 with the message of the error. *)
Theorem upload_answers_as_poller
    (POLL_ATTEMPTS : Z) (platform : Platform) (req : Request) (f : File)
    (target : StagedTarget) (created : CreatedFile) (t : Trace) :
  file req = Some f ->
  staged platform f target ->
  stored platform f target ->
  registered platform f target created ->
  upload POLL_ATTEMPTS platform req t =
  match poller POLL_ATTEMPTS platform (id created)
          (t ++ [AdminStaged (stagedVars_of f);
                 StoragePost (url target) (uploadForm target f);
                 AdminFileCreate (fileCreateVars_of target f)])%list
  with
  | (Value r, t') => (Value r, t')
  | (Throws msg, t') => (Value {| code := 500; body := ErrorBody msg |}, t')
  end.
Proof.
  intros F Sg St Rg. unfold upload, try_catch.
  rewrite (upload_try_reaches_poller POLL_ATTEMPTS platform req f F
             target created t Sg St Rg).
  destruct (poller _ _ _ _) as [[r | msg] t']; reflexivity.
Qed.

(** X11.  When the Admin API fails during polling (the request of an
    attempt is rejected, its answer carries GraphQL errors, or it has no
    [data]), after attempts that saw a node that was not READY-with-URL,
    the caller gets 500 with the message of that error, not a timeout;
    the failed query is the last event. *)
Theorem poll_failure_answers_500
    (POLL_ATTEMPTS : Z) (platform : Platform) (req : Request) (f : File)
    (target : StagedTarget) (created : CreatedFile) (t : Trace)
    (k : nat) (msg : string) :
  file req = Some f ->
  staged platform f target ->
  stored platform f target ->
  registered platform f target created ->
  (k < Z.to_nat POLL_ATTEMPTS)%nat ->
  (forall i, (i < k)%nat -> pending_at platform (id created) i) ->
  poll_error platform (id created) k = Some msg ->
  upload POLL_ATTEMPTS platform req t
  = (Value {| code := 500; body := ErrorBody msg |},
     (t ++ [AdminStaged (stagedVars_of f);
            StoragePost (url target) (uploadForm target f);
            AdminFileCreate (fileCreateVars_of target f)]
        ++ pending_events (id created) k ++ [AdminNode (id created)])%list).
Proof.
  intros F Sg St Rg K P Er. apply upload_catches.
  rewrite (upload_try_reaches_poller POLL_ATTEMPTS platform req f F
             target created t Sg St Rg).
  rewrite (poller_fails_at POLL_ATTEMPTS platform (id created) _ k msg K P Er).
  now rewrite <- app_assoc.
Qed.

(** X12.  With a ceiling that is zero or negative, an upload that was
    staged, stored and registered is still answered with the timeout,
    status "UNKNOWN": the handler asks for no status at all. *)
Theorem nonpositive_ceiling_times_out
    (POLL_ATTEMPTS : Z) (platform : Platform) (req : Request) (f : File)
    (target : StagedTarget) (created : CreatedFile) (t : Trace) :
  file req = Some f ->
  staged platform f target ->
  stored platform f target ->
  registered platform f target created ->
  POLL_ATTEMPTS <= 0 ->
  upload POLL_ATTEMPTS platform req t
  = (Value {| code := 500;
              body := TimeoutBody "File did not become READY in time" "UNKNOWN" |},
     (t ++ [AdminStaged (stagedVars_of f);
            StoragePost (url target) (uploadForm target f);
            AdminFileCreate (fileCreateVars_of target f)])%list).
Proof.
  intros F Sg St Rg B. apply upload_responds.
  rewrite (upload_try_reaches_poller POLL_ATTEMPTS platform req f F
             target created t Sg St Rg).
  unfold poller. replace (Z.to_nat POLL_ATTEMPTS) with O by lia. reflexivity.
Qed.

(** X13.  Whatever the request and whatever the platform answers, the
    outbound calls of one request keep the order of the phases and are
    bounded: at most one staging call, then at most one blob upload, then
    at most one registration, then at most [POLL_ATTEMPTS] status queries
    of one asset, with never more sleeps than queries.  Nothing is
    retried, and no phase starts before the one before it. *)
Theorem upload_events_phase_ordered
    (POLL_ATTEMPTS : Z) (platform : Platform) (req : Request) (t : Trace) :
  exists evs,
    snd (upload POLL_ATTEMPTS platform req t) = (t ++ evs)%list /\
    phase_ordered (Z.to_nat POLL_ATTEMPTS) evs /\
    (List.length (filter is_staging evs) <= 1)%nat /\
    (List.length (filter is_storage evs) <= 1)%nat /\
    (List.length (filter is_registration evs) <= 1)%nat /\
    (status_queries evs <= Z.to_nat POLL_ATTEMPTS)%nat /\
    (List.length (filter is_sleep evs) <= status_queries evs)%nat.
Proof.
  destruct (upload_try_invariant POLL_ATTEMPTS platform req t) as (o & evs & E & Ph & _).
  exists evs. rewrite snd_upload, E. split; [reflexivity |].
  split; [exact Ph |]. now apply phase_ordered_counts with (budget := Z.to_nat POLL_ATTEMPTS).
Qed.

(** X14.  Whatever the request and whatever the platform answers, the
    handler sends a response, and status code and body agree: a [url]
    body comes with 200 and a non-empty URL; an [errors] body with 422
    and a non-empty list; the timeout body with 500 and a non-empty
    status; the storage failure body with a code outside 200..299; a
    plain [error] body with 400 or 500. *)
Theorem upload_response_consistent
    (POLL_ATTEMPTS : Z) (platform : Platform) (req : Request) (t : Trace) :
  exists r t',
    upload POLL_ATTEMPTS platform req t = (Value r, t') /\
    response_consistent r.
Proof.
  destruct (upload_try_invariant POLL_ATTEMPTS platform req t) as (o & evs & E & _ & R).
  destruct o as [r | msg].
  - exists r, (t ++ evs)%list. split; [now apply upload_responds | exact R].
  - exists (status_json 500 (ErrorBody msg)), (t ++ evs)%list.
    split; [now apply upload_catches | cbn; auto].
Qed.


(** ** These properties at the sample platforms *)

Lemma staged_by_staging_ok (p : Platform) :
  on_stagedUploadsCreate p = Sample.staging_ok ->
  staged p Sample.cat_png Sample.T.
Proof. intros E. do 3 eexists. rewrite E. repeat split; reflexivity. Defined.

Lemma stored_by_storage_200 (p : Platform) :
  on_storage p = Sample.storage_200 ->
  stored p Sample.cat_png Sample.T.
Proof. intros E. eexists. rewrite E. split; reflexivity. Defined.

Lemma registered_by_register_ok (p : Platform) :
  on_fileCreate p = Sample.register_ok ->
  registered p Sample.cat_png Sample.T Sample.created_image.
Proof. intros E. do 3 eexists. rewrite E. repeat split; reflexivity. Defined.



Lemma no_file_400_witness :
  file {| file := None |} = None /\
  upload 30 Sample.happy {| file := None |} []
    = (Value {| code := 400; body := ErrorBody "No file provided" |}, []).
Proof.
  split; [reflexivity |].
  exact (no_file_400 30 Sample.happy {| file := None |} [] eq_refl).
Defined.

Lemma staging_failure_500_witness :
  admin_error (on_stagedUploadsCreate Sample.offline (stagedVars_of Sample.cat_png))
    = Some "connect ECONNREFUSED" /\
  upload 30 Sample.offline Sample.req []
    = (Value {| code := 500; body := ErrorBody "connect ECONNREFUSED" |},
       [AdminStaged (stagedVars_of Sample.cat_png)]) /\
  upload 30 Sample.throttled Sample.req []
    = (Value {| code := 500; body := ErrorBody "GraphQL errors: [{}]" |},
       [AdminStaged (stagedVars_of Sample.cat_png)]).
Proof.
  split; [reflexivity |]. split.
  - exact (staging_failure_500 30 Sample.offline Sample.req Sample.cat_png
             "connect ECONNREFUSED" [] eq_refl eq_refl).
  - exact (staging_failure_500 30 Sample.throttled Sample.req Sample.cat_png
             "GraphQL errors: [{}]" [] eq_refl eq_refl).
Defined.

Lemma storage_unreachable_500_witness :
  on_storage Sample.storage_down (url Sample.T) (uploadForm Sample.T Sample.cat_png)
    = Rejects "socket hang up" /\
  upload 30 Sample.storage_down Sample.req []
    = (Value {| code := 500; body := ErrorBody "socket hang up" |},
       [AdminStaged (stagedVars_of Sample.cat_png);
        StoragePost (url Sample.T) (uploadForm Sample.T Sample.cat_png)]).
Proof.
  split; [reflexivity |].
  exact (storage_unreachable_500 30 Sample.storage_down Sample.req Sample.cat_png
           Sample.T "socket hang up" [] eq_refl
           (staged_by_staging_ok Sample.storage_down eq_refl) eq_refl).
Defined.

Lemma registration_follows_upload_witness :
  staged Sample.happy Sample.cat_png Sample.T /\
  stored Sample.happy Sample.cat_png Sample.T /\
  exists polls,
    snd (upload 30 Sample.happy Sample.req [])
    = ([AdminStaged (stagedVars_of Sample.cat_png);
        StoragePost "https://storage.test/upload" (uploadForm Sample.T Sample.cat_png);
        AdminFileCreate {| originalSource := "https://storage.test/tmp/cat.png";
                           fc_filename := "cat.png";
                           contentType := "IMAGE" |}] ++ polls)%list /\
    filter is_registration polls = [].
Proof.
  split; [apply staged_by_staging_ok; reflexivity |].
  split; [apply stored_by_storage_200; reflexivity |].
  destruct (registration_follows_upload 30 Sample.happy Sample.req Sample.cat_png
              Sample.T [] eq_refl
              (staged_by_staging_ok Sample.happy eq_refl) (stored_by_storage_200 Sample.happy eq_refl))
    as (i & polls & E & _ & R & _).
  exists polls. split; [exact E | exact R].
Defined.

Lemma registration_failure_500_witness :
  admin_error (on_fileCreate Sample.registration_down
                 (fileCreateVars_of Sample.T Sample.cat_png))
    = Some "socket hang up" /\
  upload 30 Sample.registration_down Sample.req []
    = (Value {| code := 500; body := ErrorBody "socket hang up" |},
       [AdminStaged (stagedVars_of Sample.cat_png);
        StoragePost (url Sample.T) (uploadForm Sample.T Sample.cat_png);
        AdminFileCreate (fileCreateVars_of Sample.T Sample.cat_png)]).
Proof.
  split; [reflexivity |].
  destruct (registration_failure_500 30 Sample.registration_down Sample.req
              Sample.cat_png Sample.T "socket hang up" [] eq_refl
              (staged_by_staging_ok Sample.registration_down eq_refl) (stored_by_storage_200 Sample.registration_down eq_refl)
              eq_refl)
    as (evs & E & -> & _).
  exact E.
Defined.

Lemma registration_user_errors_422_witness :
  Sample.filename_required <> [] /\
  upload 30 Sample.unregistered Sample.req []
    = (Value {| code := 422; body := ErrorsBody Sample.filename_required |},
       [AdminStaged (stagedVars_of Sample.cat_png);
        StoragePost (url Sample.T) (uploadForm Sample.T Sample.cat_png);
        AdminFileCreate (fileCreateVars_of Sample.T Sample.cat_png)]).
Proof.
  assert (U : Sample.filename_required <> []) by discriminate.
  split; [exact U |].
  destruct (registration_user_errors_422 30 Sample.unregistered Sample.req
              Sample.cat_png Sample.T _ _ [] eq_refl
              (staged_by_staging_ok Sample.unregistered eq_refl) (stored_by_storage_200 Sample.unregistered eq_refl)
              eq_refl eq_refl eq_refl U)
    as (evs & E & -> & _).
  exact E.
Defined.

Lemma registration_without_file_500_witness :
  on_fileCreate Sample.no_file_created (fileCreateVars_of Sample.T Sample.cat_png)
    = Sample.answer {| files := []; fc_userErrors := [] |} /\
  upload 30 Sample.no_file_created Sample.req []
    = (Value {| code := 500;
                body := ErrorBody
                  "Cannot read properties of undefined (reading '__typename')" |},
       [AdminStaged (stagedVars_of Sample.cat_png);
        StoragePost (url Sample.T) (uploadForm Sample.T Sample.cat_png);
        AdminFileCreate (fileCreateVars_of Sample.T Sample.cat_png)]).
Proof.
  split; [reflexivity |].
  destruct (registration_without_file_500 30 Sample.no_file_created Sample.req
              Sample.cat_png Sample.T _ _ [] eq_refl
              (staged_by_staging_ok Sample.no_file_created eq_refl) (stored_by_storage_200 Sample.no_file_created eq_refl)
              eq_refl eq_refl eq_refl eq_refl eq_refl)
    as (evs & E & -> & _).
  exact E.
Defined.

Lemma upload_answers_as_poller_witness :
  registered Sample.happy Sample.cat_png Sample.T Sample.created_image /\
  upload 30 Sample.happy Sample.req []
  = match poller 30 Sample.happy Sample.gid
            [AdminStaged (stagedVars_of Sample.cat_png);
             StoragePost (url Sample.T) (uploadForm Sample.T Sample.cat_png);
             AdminFileCreate (fileCreateVars_of Sample.T Sample.cat_png)]
    with
    | (Value r, t') => (Value r, t')
    | (Throws msg, t') => (Value {| code := 500; body := ErrorBody msg |}, t')
    end.
Proof.
  split; [apply registered_by_register_ok; reflexivity |].
  exact (upload_answers_as_poller 30 Sample.happy Sample.req Sample.cat_png
           Sample.T Sample.created_image [] eq_refl
           (staged_by_staging_ok Sample.happy eq_refl) (stored_by_storage_200 Sample.happy eq_refl)
           (registered_by_register_ok Sample.happy eq_refl)).
Defined.

Lemma poll_failure_answers_500_witness :
  pending_at Sample.poll_breaks Sample.gid 0 /\
  poll_error Sample.poll_breaks Sample.gid 1 = Some "socket hang up" /\
  upload 30 Sample.poll_breaks Sample.req []
    = (Value {| code := 500; body := ErrorBody "socket hang up" |},
       [AdminStaged (stagedVars_of Sample.cat_png);
        StoragePost (url Sample.T) (uploadForm Sample.T Sample.cat_png);
        AdminFileCreate (fileCreateVars_of Sample.T Sample.cat_png);
        AdminNode Sample.gid; Sleep 1000; AdminNode Sample.gid]).
Proof.
  assert (P0 : pending_at Sample.poll_breaks Sample.gid 0)
    by (eexists; split; reflexivity).
  assert (K : (1 < Z.to_nat 30)%nat) by (vm_compute; lia).
  assert (P : forall i, (i < 1)%nat -> pending_at Sample.poll_breaks Sample.gid i).
  { intros i Hi. destruct i as [| i]; [exact P0 | lia]. }
  split; [exact P0 |]. split; [reflexivity |].
  exact (poll_failure_answers_500 30 Sample.poll_breaks Sample.req Sample.cat_png
           Sample.T Sample.created_image [] 1 "socket hang up" eq_refl
           (staged_by_staging_ok Sample.poll_breaks eq_refl) (stored_by_storage_200 Sample.poll_breaks eq_refl)
           (registered_by_register_ok Sample.poll_breaks eq_refl) K P eq_refl).
Defined.

Lemma nonpositive_ceiling_times_out_witness :
  0 <= 0 /\
  upload 0 Sample.happy Sample.req []
    = (Value {| code := 500;
                body := TimeoutBody "File did not become READY in time" "UNKNOWN" |},
       [AdminStaged (stagedVars_of Sample.cat_png);
        StoragePost (url Sample.T) (uploadForm Sample.T Sample.cat_png);
        AdminFileCreate (fileCreateVars_of Sample.T Sample.cat_png)]).
Proof.
  assert (B : 0 <= 0) by lia.
  split; [exact B |].
  exact (nonpositive_ceiling_times_out 0 Sample.happy Sample.req Sample.cat_png
           Sample.T Sample.created_image [] eq_refl
           (staged_by_staging_ok Sample.happy eq_refl) (stored_by_storage_200 Sample.happy eq_refl)
           (registered_by_register_ok Sample.happy eq_refl) B).
Defined.

